(** * MCP Enterprise Support Demo: the tool handlers of [src/index.ts]

    A shallow embedding of the four tool handlers ([lookup_customer],
    [get_open_tickets], [get_response_guidance], [check_escalation_rules]) and of
    the two helpers they call ([generateSupportGuidance],
    [generateResponseGuidance]), followed by the properties of the
    specification that concern them.

    Conventions of the embedding.
    - A JavaScript string is a [string]: the bytes of its UTF-8 form, on
      which equality and substring search agree with those of the code.
      [toLowerCase] belongs to the host; all that is known of it is that on
      ASCII text it is [asciiLowerCase], the mapping of A-Z to a-z.
    - A finite JavaScript number is a rational ([Q]); [NaN] is [None] where a
      computation can produce it (dates that do not parse).
    - [database.escalationRules] is a JSON object: its own members are a
      [gmap string EscalationRule.t], and reading a member of it
      ([getProperty]) also finds the members every object inherits.
    - A handler returns the object it passes to [JSON.stringify]; an
      exception that escapes a function is the [Throw] case of [completion].
    - What the host provides ([Date.now], date parsing, number formatting) is
      the class [Host]. *)

From Stdlib Require Import ZArith QArith List Ascii Bool Lia Lqa.
From stdpp Require Import base option list strings pretty gmap.

Local Open Scope Z_scope.

(** ** Strings *)

Definition dquote : string := String (ascii_of_nat 34) EmptyString.
Definition nl : string := String (ascii_of_nat 10) EmptyString.

Definition lower_char (a : ascii) : ascii :=
  let n := nat_of_ascii a in
  if ((65 <=? n)%nat && (n <=? 90)%nat)%bool then ascii_of_nat (n + 32) else a.

(** [String.prototype.toLowerCase] on ASCII text. *)
Fixpoint asciiLowerCase (s : string) : string :=
  match s with
  | EmptyString => EmptyString
  | String a s' => String (lower_char a) (asciiLowerCase s')
  end.

(** Every byte of [s] is below 128. *)
Fixpoint isASCII (s : string) : bool :=
  match s with
  | EmptyString => true
  | String a s' => (nat_of_ascii a <? 128)%nat && isASCII s'
  end.

(** [s.startsWith(p)] *)
Fixpoint startsWith (s p : string) {struct p} : bool :=
  match p, s with
  | EmptyString, _ => true
  | String _ _, EmptyString => false
  | String b p', String a s' => Ascii.eqb a b && startsWith s' p'
  end.

(** [String.prototype.includes]: [searchString] occurs in [s] at some
    position. *)
Fixpoint includes (s searchString : string) : bool :=
  startsWith s searchString ||
  match s with
  | EmptyString => false
  | String _ s' => includes s' searchString
  end.

(** [Array.prototype.includes] on an array of strings. *)
Definition Array_includes (l : list string) (x : string) : bool :=
  existsb (String.eqb x) l.

(** [Array.prototype.join] on an array of strings. *)
Fixpoint join (sep : string) (l : list string) : string :=
  match l with
  | [] => ""
  | [x] => x
  | x :: l' => x +:+ sep +:+ join sep l'
  end.

(** [a || b] on strings: the empty string is falsy, [undefined] is [None]. *)
Definition or_default (a : option string) (b : string) : string :=
  match a with
  | Some s => if String.eqb s "" then b else s
  | None => b
  end.

(** ** Data model *)

Definition number := Q.

Module Contact.
Record t := mk {
  name : string;
  role : string;
  email : string;
  primary : bool }.
End Contact.

Module ApiUsage.
Record t := mk {
  monthlyTokens : number;
  monthlyLimit : number;
  utilizationPercent : number }.
End ApiUsage.

Module SupportHistory.
Record t := mk {
  totalTickets : number;
  avgResolutionHours : number;
  csat : number }.
End SupportHistory.

Module Customer.
Record t := mk {
  id : string;
  company : string;
  tier : string;
  accountManager : option string;
  contractValue : number;
  renewalDate : string;
  products : list string;
  apiUsage : ApiUsage.t;
  knownIssues : list string;
  supportHistory : SupportHistory.t;
  contacts : list Contact.t;
  flags : list string }.
End Customer.

Module Ticket.
Record t := mk {
  id : string;
  customerId : string;
  subject : string;
  status : string;
  priority : string;
  createdAt : string;
  lastUpdated : string;
  assignee : string;
  description : string;
  tags : list string }.
End Ticket.

Module EscalationRule.
Record t := mk {
  maxResponseTime : string;
  escalateTo : string;
  autoEscalateAfter : string }.
End EscalationRule.

Record Database := mkDatabase {
  customers : list Customer.t;
  tickets : list Ticket.t;
  escalationRules : gmap string EscalationRule.t }.

(** ** Reading a member of a JSON object *)

(** The members of [Object.prototype], which every object [JSON.parse]
    builds inherits. *)
Definition Object_prototype_members : list string :=
  [ "constructor"; "__defineGetter__"; "__defineSetter__"; "hasOwnProperty";
    "__lookupGetter__"; "__lookupSetter__"; "isPrototypeOf";
    "propertyIsEnumerable"; "toString"; "valueOf"; "__proto__"; "toLocaleString" ].

(** What [object[key]] evaluates to: an own member, a member inherited from
    [Object.prototype] (a function, or [Object.prototype] itself for
    [__proto__]), or [undefined]. *)
Inductive property (A : Type) :=
  | Own (a : A)
  | Inherited (key : string)
  | Undefined.
Arguments Own {A} a.
Arguments Inherited {A} key.
Arguments Undefined {A}.

Definition getProperty {A : Type} (object : gmap string A) (key : string) : property A :=
  match object !! key with
  | Some a => Own a
  | None =>
      if Array_includes Object_prototype_members key then Inherited key else Undefined
  end.

(** [value?.field] for a string field of a rule: an inherited member has no
    such field. *)
Definition optionalField {A : Type} (field : A -> string) (value : property A)
  : option string :=
  match value with
  | Own a => Some (field a)
  | Inherited _ => None
  | Undefined => None
  end.

(** ** Exceptions *)

Inductive JSError := TypeError (message : string).

Inductive completion (A : Type) :=
  | Normal (a : A)
  | Throw (e : JSError).
Arguments Normal {A} a.
Arguments Throw {A} e.

(** ** The host *)

(** [Date_now k] is what the [k]-th call of [Date.now()] made while one
    request is handled returns, in milliseconds, a clock reading between
    1970 and the year 13600; [Date_parse s] is the time value the host's date
    parser gives [s], [None] when it rejects it; [toLowerCase] is
    [String.prototype.toLowerCase], of which the embedding knows what it does
    on ASCII text. *)
Class Host := {
  Date_now : nat -> Z;
  Date_parse : string -> option Z;
  Number_toString : number -> string;
  Number_toLocaleString : number -> string;
  Date_now_range : forall k, 0 <= Date_now k <= 2 ^ 53 - 8640000000000000;
  toLowerCase : string -> string;
  toLowerCase_ascii : forall s, isASCII s = true -> toLowerCase s = asciiLowerCase s }.

Definition msPerDay : Z := 1000 * 60 * 60 * 24.

(** [new Date(s).getTime()]: the parsed time value, clipped to the range of
    time values ([NaN] outside of it). *)
Definition getTime `{Host} (s : string) : option Z :=
  match Date_parse s with
  | Some ms => if Z.abs ms <=? 8640000000000000 then Some ms else None
  | None => None
  end.

(** [Math.ceil(ms / (1000 * 60 * 60 * 24))] for the difference [ms] of a clock
    reading and a time value. With the clock in the range of [Date_now_range]
    and the time value clipped by [getTime], [ms] is below 2^53 in size, so
    the subtraction of the source is exact. Its quotient is a double whose
    distance to the next whole number is 0 or at least 1/86400000, more than
    half a unit in the last place of any quotient below 2^27, so rounding
    never moves it across a whole number and the ceiling is the exact one. *)
Definition ceilDays (ms : Z) : Z := - ((- ms) / msPerDay).

(** ** What the handlers return *)

Module SupportGuidance.
Record t := mk {
  priorityLevel : string;
  responseTimeTarget : string;
  keyGuidance : list string;
  accountManager : option string }.
End SupportGuidance.

Module RenewalStatus.
Record t := mk {
  date : string;
  daysUntil : option Z;
  urgent : bool }.
End RenewalStatus.

Module ApiUsageStatus.
Record t := mk {
  monthlyTokens : number;
  monthlyLimit : number;
  utilizationPercent : number;
  status : string }.
End ApiUsageStatus.

Module PrimaryContact.
Record t := mk {
  name : string;
  role : string;
  email : string }.
End PrimaryContact.

Module CustomerView.
Record t := mk {
  id : string;
  company : string;
  tier : string;
  accountManager : option string;
  contractValue : string;
  renewalStatus : RenewalStatus.t;
  products : list string;
  apiUsage : ApiUsageStatus.t;
  primaryContact : option PrimaryContact.t;
  supportHistory : SupportHistory.t;
  activeFlags : list string;
  knownIssues : list string }.
End CustomerView.

(** [{found: true, customer, supportGuidance}] *)
Module CustomerContext.
Record t := mk {
  found : bool;
  customer : CustomerView.t;
  supportGuidance : SupportGuidance.t }.
End CustomerContext.

(** [{found: false, message, suggestion}] of [lookup_customer] *)
Module QueryNotFound.
Record t := mk {
  found : bool;
  message : string;
  suggestion : string }.
End QueryNotFound.

(** [{found: false, message}] of [get_open_tickets] and
    [get_response_guidance] *)
Module IdNotFound.
Record t := mk {
  found : bool;
  message : string }.
End IdNotFound.

Module TicketView.
Record t := mk {
  id : string;
  subject : string;
  status : string;
  priority : string;
  ageInDays : option Z;
  lastUpdated : string;
  assignee : string;
  tags : list string }.
End TicketView.

Module TicketSummary.
Record t := mk {
  customerId : string;
  company : string;
  tier : string;
  openTicketCount : nat;
  tickets : list TicketView.t;
  escalationRule : property EscalationRule.t }.
End TicketSummary.

Module GuidanceCustomer.
Record t := mk {
  company : string;
  tier : string;
  primaryContact : option string }.
End GuidanceCustomer.

Module ResponseGuidance.
Record t := mk {
  customer : GuidanceCustomer.t;
  issueType : string;
  responseTemplate : string;
  toneGuidance : list string;
  escalationPath : property EscalationRule.t;
  additionalContext : list string }.
End ResponseGuidance.

Inductive LookupResult :=
  | LookupMiss (r : QueryNotFound.t)
  | LookupHit (r : CustomerContext.t).

Inductive TicketsResult :=
  | TicketsMiss (r : IdNotFound.t)
  | TicketsHit (r : TicketSummary.t).

Inductive GuidanceResult :=
  | GuidanceMiss (r : IdNotFound.t)
  | GuidanceHit (r : ResponseGuidance.t).

(** ** The helpers *)

Section Handlers.
Context `{Host}.
Variable database : Database.

(** [customer.contacts.find(c => c.primary)] *)
Definition primaryOf (customer : Customer.t) : option Contact.t :=
  find Contact.primary (Customer.contacts customer).

(** [customer.contacts.find(c => c.primary)?.name || "there"] *)
Definition greetingName (customer : Customer.t) : string :=
  or_default (Contact.name <$> primaryOf customer) "there".

(** The [guidance] array of [generateSupportGuidance], one block per [if]. *)
Definition tierGuidance (customer : Customer.t) : list string :=
  if String.eqb (Customer.tier customer) "Enterprise Plus" then
    [ "ðŸ”´ STRATEGIC ACCOUNT - White-glove service required";
      "Always CC account manager on responses";
      "Proactive status updates every 2 hours for open issues" ]
  else if String.eqb (Customer.tier customer) "Enterprise" then
    [ "Enterprise customer - Prioritize and personalize";
      "Loop in account manager for complex issues" ]
  else [].

Definition flagGuidance (customer : Customer.t) : list string :=
  (if Array_includes (Customer.flags customer) "HIGH_VALUE"
   then ["ðŸ’° High-value account - Extra care on all interactions"] else []) ++
  (if Array_includes (Customer.flags customer) "APPROACHING_RENEWAL"
   then ["âš ï¸ Renewal approaching - Ensure positive experience"] else []) ++
  (if Array_includes (Customer.flags customer) "EXPANSION_OPPORTUNITY"
   then ["ðŸ“ˆ Expansion opportunity - Note upsell potential"] else []) ++
  (if Array_includes (Customer.flags customer) "COMPLIANCE_SENSITIVE"
   then ["ðŸ”’ Compliance-sensitive - Document all interactions thoroughly"] else []).

Definition usageGuidance (customer : Customer.t) : list string :=
  if Qle_bool (90 # 1) (ApiUsage.utilizationPercent (Customer.apiUsage customer))
  then ["âš¡ Approaching API limit - Proactively discuss upgrade options"] else [].

Definition knownIssuesGuidance (customer : Customer.t) : list string :=
  if (0 <? length (Customer.knownIssues customer))%nat
  then ["ðŸ“‹ Known issues to be aware of: " +:+ join "; " (Customer.knownIssues customer)] else [].

Definition generateSupportGuidance (customer : Customer.t) : SupportGuidance.t :=
  let guidance :=
    tierGuidance customer ++ flagGuidance customer ++
    usageGuidance customer ++ knownIssuesGuidance customer in
  {| SupportGuidance.priorityLevel :=
       if includes (Customer.tier customer) "Enterprise" then "HIGH" else "STANDARD";
     SupportGuidance.responseTimeTarget :=
       or_default
         (optionalField EscalationRule.maxResponseTime
            (getProperty (escalationRules database) (Customer.tier customer)))
         "24 hours";
     SupportGuidance.keyGuidance := guidance;
     SupportGuidance.accountManager := Customer.accountManager customer |}.

(** The tone lines pushed before the [switch]. *)
Definition tierTone (customer : Customer.t) : list string :=
  if includes (Customer.tier customer) "Enterprise" then
    [ "Use professional, consultative tone";
      "Reference their specific use case if known";
      "Offer direct line or meeting for complex issues" ]
  else
    [ "Friendly and helpful tone";
      "Clear, step-by-step guidance" ].

(** The tone lines pushed by [case "escalation"]. *)
Definition escalationTone : list string :=
  [ "Acknowledge frustration"; "Provide concrete timeline"; "Take ownership" ].

Definition billingTemplate (customer : Customer.t) : string :=
  "Hi " +:+ greetingName customer +:+ "," +:+ nl +:+ nl +:+
  "Thank you for reaching out about your billing inquiry. [Address specific question]" +:+
  nl +:+ nl +:+
  "For reference, your current plan is " +:+ join ", " (Customer.products customer) +:+
  " at $" +:+ Number_toLocaleString (Customer.contractValue customer) +:+ "/year." +:+
  nl +:+ nl +:+ "[Resolution or next steps]".

Definition technicalTemplate (customer : Customer.t) : string :=
  "Hi " +:+ greetingName customer +:+ "," +:+ nl +:+ nl +:+
  "Thank you for reporting this technical issue. [Acknowledge the problem]" +:+
  nl +:+ nl +:+
  "Current API usage: " +:+
  Number_toString (ApiUsage.utilizationPercent (Customer.apiUsage customer)) +:+
  "% of monthly limit" +:+
  nl +:+ nl +:+ "[Technical solution or investigation steps]".

Definition escalationTemplate (customer : Customer.t) (escalateTo : string) : string :=
  "Hi " +:+ greetingName customer +:+ "," +:+ nl +:+ nl +:+
  "I understand the urgency of this issue and I'm escalating this to " +:+
  escalateTo +:+ " immediately." +:+
  nl +:+ nl +:+ "[Summary of issue and actions taken]" +:+
  nl +:+ nl +:+ "You can expect an update within [timeframe based on SLA].".

Definition defaultTemplate (customer : Customer.t) : string :=
  "Hi " +:+ greetingName customer +:+ "," +:+ nl +:+ nl +:+
  "Thank you for contacting Anthropic support. [Address their inquiry]" +:+
  nl +:+ nl +:+ "[Resolution or next steps]".

Definition generateResponseGuidance (customer : Customer.t) (issueType : string)
  : completion ResponseGuidance.t :=
  let base (template : string) (tone context : list string) :=
    {| ResponseGuidance.customer :=
         {| GuidanceCustomer.company := Customer.company customer;
            GuidanceCustomer.tier := Customer.tier customer;
            GuidanceCustomer.primaryContact := Contact.name <$> primaryOf customer |};
       ResponseGuidance.issueType := issueType;
       ResponseGuidance.responseTemplate := template;
       ResponseGuidance.toneGuidance := tone;
       ResponseGuidance.escalationPath :=
         getProperty (escalationRules database) (Customer.tier customer);
       ResponseGuidance.additionalContext := context |} in
  if String.eqb issueType "billing" then
    Normal (base (billingTemplate customer) (tierTone customer)
      [ "Contract value: $" +:+ Number_toLocaleString (Customer.contractValue customer);
        "Renewal date: " +:+ Customer.renewalDate customer ])
  else if String.eqb issueType "api" || String.eqb issueType "technical" then
    Normal (base (technicalTemplate customer) (tierTone customer)
      ([ "API utilization: " +:+
           Number_toString (ApiUsage.utilizationPercent (Customer.apiUsage customer)) +:+ "%";
         "Products: " +:+ join ", " (Customer.products customer) ] ++
       (if (0 <? length (Customer.knownIssues customer))%nat
        then ["Known issues: " +:+ join "; " (Customer.knownIssues customer)]
        else [])))
  else if String.eqb issueType "escalation" then
    match getProperty (escalationRules database) (Customer.tier customer) with
    | Own rule =>
        Normal (base (escalationTemplate customer (EscalationRule.escalateTo rule))
                  (tierTone customer ++ escalationTone) [])
    | Inherited _ =>
        Normal (base (escalationTemplate customer "undefined")
                  (tierTone customer ++ escalationTone) [])
    | Undefined =>
        Throw (TypeError "Cannot read properties of undefined (reading 'escalateTo')")
    end
  else
    Normal (base (defaultTemplate customer) (tierTone customer) []).

(** ** The tool handlers *)

(** The predicate of [database.customers.find] in [lookup_customer]. *)
Definition matchesQuery (searchLower : string) (c : Customer.t) : bool :=
  String.eqb (toLowerCase (Customer.id c)) searchLower ||
  includes (toLowerCase (Customer.company c)) searchLower.

Definition usageStatus (utilizationPercent : number) : string :=
  if Qle_bool (90 # 1) utilizationPercent then "APPROACHING_LIMIT"
  else if Qle_bool (75 # 1) utilizationPercent then "HEALTHY"
  else "UNDERUTILIZED".

Definition customerContext (customer : Customer.t) : CustomerContext.t :=
  let primaryContact := primaryOf customer in
  let daysUntilRenewal :=
    (fun t => ceilDays (t - Date_now 0)) <$> getTime (Customer.renewalDate customer) in
  {| CustomerContext.found := true;
     CustomerContext.customer :=
       {| CustomerView.id := Customer.id customer;
          CustomerView.company := Customer.company customer;
          CustomerView.tier := Customer.tier customer;
          CustomerView.accountManager := Customer.accountManager customer;
          CustomerView.contractValue :=
            "$" +:+ Number_toLocaleString (Customer.contractValue customer);
          CustomerView.renewalStatus :=
            {| RenewalStatus.date := Customer.renewalDate customer;
               RenewalStatus.daysUntil := daysUntilRenewal;
               RenewalStatus.urgent :=
                 match daysUntilRenewal with
                 | Some d => d <=? 30
                 | None => false
                 end |};
          CustomerView.products := Customer.products customer;
          CustomerView.apiUsage :=
            let u := Customer.apiUsage customer in
            {| ApiUsageStatus.monthlyTokens := ApiUsage.monthlyTokens u;
               ApiUsageStatus.monthlyLimit := ApiUsage.monthlyLimit u;
               ApiUsageStatus.utilizationPercent := ApiUsage.utilizationPercent u;
               ApiUsageStatus.status := usageStatus (ApiUsage.utilizationPercent u) |};
          CustomerView.primaryContact :=
            (fun p => {| PrimaryContact.name := Contact.name p;
                         PrimaryContact.role := Contact.role p;
                         PrimaryContact.email := Contact.email p |}) <$> primaryContact;
          CustomerView.supportHistory := Customer.supportHistory customer;
          CustomerView.activeFlags := Customer.flags customer;
          CustomerView.knownIssues := Customer.knownIssues customer |};
     CustomerContext.supportGuidance := generateSupportGuidance customer |}.

Definition lookup_customer (query : string) : LookupResult :=
  let searchLower := toLowerCase query in
  match find (matchesQuery searchLower) (customers database) with
  | None =>
      LookupMiss
        {| QueryNotFound.found := false;
           QueryNotFound.message :=
             "No customer found matching " +:+ dquote +:+ query +:+ dquote;
           QueryNotFound.suggestion :=
             "Try searching by company name or customer ID (e.g., ENT-001)" |}
  | Some customer => LookupHit (customerContext customer)
  end.

(** [{found: false, message: `No customer found with ID "${customerId}"`}] *)
Definition idNotFound (customerId : string) : IdNotFound.t :=
  {| IdNotFound.found := false;
     IdNotFound.message :=
       "No customer found with ID " +:+ dquote +:+ customerId +:+ dquote |}.

(** [["open", "pending", "in_progress"].includes(status)] *)
Definition isOpenStatus (status : string) : bool :=
  Array_includes ["open"; "pending"; "in_progress"] status.

(** The predicate of [database.tickets.filter] in [get_open_tickets]. *)
Definition isOpenTicketOf (customerId : string) (t : Ticket.t) : bool :=
  String.eqb (Ticket.customerId t) customerId && isOpenStatus (Ticket.status t).

(** The object [tickets.map] builds for the [k]-th ticket it visits; it reads
    the clock once. *)
Definition ticketView (k : nat) (t : Ticket.t) : TicketView.t :=
  {| TicketView.id := Ticket.id t;
     TicketView.subject := Ticket.subject t;
     TicketView.status := Ticket.status t;
     TicketView.priority := Ticket.priority t;
     TicketView.ageInDays :=
       (fun created => ceilDays (Date_now k - created)) <$> getTime (Ticket.createdAt t);
     TicketView.lastUpdated := Ticket.lastUpdated t;
     TicketView.assignee := Ticket.assignee t;
     TicketView.tags := Ticket.tags t |}.

Definition get_open_tickets (customerId : string) : TicketsResult :=
  match find (fun c => String.eqb (Customer.id c) customerId) (customers database) with
  | None => TicketsMiss (idNotFound customerId)
  | Some customer =>
      let tickets := List.filter (isOpenTicketOf customerId) (tickets database) in
      TicketsHit
        {| TicketSummary.customerId := customerId;
           TicketSummary.company := Customer.company customer;
           TicketSummary.tier := Customer.tier customer;
           TicketSummary.openTicketCount := length tickets;
           TicketSummary.tickets := imap ticketView tickets;
           TicketSummary.escalationRule :=
             getProperty (escalationRules database) (Customer.tier customer) |}
  end.

Definition get_response_guidance (customerId issueType : string)
  : completion GuidanceResult :=
  match find (fun c => String.eqb (Customer.id c) customerId) (customers database) with
  | None => Normal (GuidanceMiss (idNotFound customerId))
  | Some customer =>
      match generateResponseGuidance customer issueType with
      | Normal guidance => Normal (GuidanceHit guidance)
      | Throw e => Throw e
      end
  end.

End Handlers.

(** ** Specification vocabulary *)

(** [sub] occurs in [s] as a substring. *)
Definition contains (s sub : string) : Prop :=
  exists pre post, s = pre +:+ sub +:+ post.

(** [query] matches [c] the way the specification words it: it equals the id
    ignoring case, or it is a substring of the company name ignoring case. *)
Definition matchesCustomer `{Host} (query : string) (c : Customer.t) : Prop :=
  toLowerCase (Customer.id c) = toLowerCase query \/
  contains (toLowerCase (Customer.company c)) (toLowerCase query).

(** The statuses the specification counts as open. *)
Definition openStatus (status : string) : Prop :=
  status = "open" \/ status = "pending" \/ status = "in_progress".

(** A ticket of [customerId] that counts as open. *)
Definition qualifies (customerId : string) (t : Ticket.t) : Prop :=
  Ticket.customerId t = customerId /\ openStatus (Ticket.status t).

(** [c] is stored under the id [customerId]. *)
Definition hasId (customerId : string) (c : Customer.t) : Prop :=
  Customer.id c = customerId.

(** [selects P l l']: [l'] is [l] with exactly the elements that satisfy [P]
    kept, in the order of [l]. *)
Inductive selects {A : Type} (P : A -> Prop) : list A -> list A -> Prop :=
  | selects_nil : selects P [] []
  | selects_keep x l l' : P x -> selects P l l' -> selects P (x :: l) (x :: l')
  | selects_skip x l l' : ~ P x -> selects P l l' -> selects P (x :: l) l'.

(** [firstWith P l x]: [x] is the first element of [l] that satisfies [P]. *)
Definition firstWith {A : Type} (P : A -> Prop) (l : list A) (x : A) : Prop :=
  exists pre post, l = pre ++ x :: post /\ P x /\ forall y, In y pre -> ~ P y.

(** [appendsWhen P msgs block]: the block a condition contributes to the
    guidance list is [msgs] when the condition holds and nothing otherwise. *)
Inductive appendsWhen (P : Prop) (msgs : list string) : list string -> Prop :=
  | fires : P -> appendsWhen P msgs msgs
  | skips : ~ P -> appendsWhen P msgs [].

Definition strategicDirectives : list string :=
  [ "ðŸ”´ STRATEGIC ACCOUNT - White-glove service required";
    "Always CC account manager on responses";
    "Proactive status updates every 2 hours for open issues" ].

Definition enterpriseDirectives : list string :=
  [ "Enterprise customer - Prioritize and personalize";
    "Loop in account manager for complex issues" ].

(** Conditions 3 to 8 of the specification (flags, usage, known issues), in
    its order: [rest] is the concatenation of the blocks they contribute. *)
Definition laterConditions (c : Customer.t) (rest : list string) : Prop :=
  exists b3 b4 b5 b6 b7 b8,
    rest = b3 ++ b4 ++ b5 ++ b6 ++ b7 ++ b8 /\
    appendsWhen (In "HIGH_VALUE" (Customer.flags c))
      ["ðŸ’° High-value account - Extra care on all interactions"] b3 /\
    appendsWhen (In "APPROACHING_RENEWAL" (Customer.flags c))
      ["âš ï¸ Renewal approaching - Ensure positive experience"] b4 /\
    appendsWhen (In "EXPANSION_OPPORTUNITY" (Customer.flags c))
      ["ðŸ“ˆ Expansion opportunity - Note upsell potential"] b5 /\
    appendsWhen (In "COMPLIANCE_SENSITIVE" (Customer.flags c))
      ["ðŸ”’ Compliance-sensitive - Document all interactions thoroughly"] b6 /\
    appendsWhen (90 <= ApiUsage.utilizationPercent (Customer.apiUsage c))%Q
      ["âš¡ Approaching API limit - Proactively discuss upgrade options"] b7 /\
    appendsWhen (Customer.knownIssues c <> [])
      ["ðŸ“‹ Known issues to be aware of: " +:+ join "; " (Customer.knownIssues c)] b8.

(** The guidance list as the specification describes it: conditions 1 to 8
    evaluated in that order, each appending its directives when it holds. *)
Definition builtByConditions (c : Customer.t) (guidance : list string) : Prop :=
  exists b1 b2 rest,
    guidance = b1 ++ b2 ++ rest /\
    appendsWhen (Customer.tier c = "Enterprise Plus") strategicDirectives b1 /\
    appendsWhen (Customer.tier c <> "Enterprise Plus" /\ Customer.tier c = "Enterprise")
      enterpriseDirectives b2 /\
    laterConditions c rest.

(** ** Sample data *)

Module Sample.

(** A host whose clock stands at 2025-01-02T00:00:00Z, that parses three
    timestamps and prints the whole part of a number in decimal. *)
Definition parse (s : string) : option Z :=
  if String.eqb s "2025-01-02T00:00:00Z" then Some 1735776000000
  else if String.eqb s "2025-01-01T01:00:00Z" then Some 1735693200000
  else if String.eqb s "2025-03-01T00:00:00Z" then Some 1740787200000
  else None.

Definition print (q : number) : string :=
  pretty (Qnum q / Z.pos (Qden q)).

Definition host : Host :=
  {| Date_now := fun _ => 1735776000000;
     Date_parse := parse;
     Number_toString := print;
     Number_toLocaleString := print;
     Date_now_range := fun _ => ltac:(vm_compute; split; discriminate);
     toLowerCase := asciiLowerCase;
     toLowerCase_ascii := fun s _ => eq_refl |}.

Definition customer (id company tier : string) : Customer.t :=
  {| Customer.id := id;
     Customer.company := company;
     Customer.tier := tier;
     Customer.accountManager := Some "Sarah Chen";
     Customer.contractValue := 125000 # 1;
     Customer.renewalDate := "2025-03-01T00:00:00Z";
     Customer.products := ["Claude API"; "Claude Enterprise"];
     Customer.apiUsage :=
       {| ApiUsage.monthlyTokens := 45000000 # 1;
          ApiUsage.monthlyLimit := 50000000 # 1;
          ApiUsage.utilizationPercent := 90 # 1 |};
     Customer.knownIssues := ["Rate limiting concerns during peak hours"];
     Customer.supportHistory :=
       {| SupportHistory.totalTickets := 12 # 1;
          SupportHistory.avgResolutionHours := 9 # 2;
          SupportHistory.csat := 47 # 10 |};
     Customer.contacts :=
       [ {| Contact.name := "John Smith"; Contact.role := "CTO";
            Contact.email := "john@acme.example"; Contact.primary := true |} ];
     Customer.flags := ["HIGH_VALUE"; "EXPANSION_OPPORTUNITY"] |}.

Definition acme : Customer.t := customer "ENT-001" "Acme Corporation" "Enterprise".
Definition globex : Customer.t := customer "ENT-002" "Globex Industries" "Enterprise Plus".
Definition initech : Customer.t := customer "STR-001" "Initech Labs" "Startup".

Definition ticket (id customerId status createdAt : string) : Ticket.t :=
  {| Ticket.id := id;
     Ticket.customerId := customerId;
     Ticket.subject := "Rate limit errors";
     Ticket.status := status;
     Ticket.priority := "high";
     Ticket.createdAt := createdAt;
     Ticket.lastUpdated := "2025-01-02T00:00:00Z";
     Ticket.assignee := "Support Team";
     Ticket.description := "429 responses during peak hours";
     Ticket.tags := ["api"] |}.

Definition rules : gmap string EscalationRule.t :=
  <["Enterprise" :=
      {| EscalationRule.maxResponseTime := "4 hours";
         EscalationRule.escalateTo := "Senior Support Engineer";
         EscalationRule.autoEscalateAfter := "8 hours" |}]>
  (<["Enterprise Plus" :=
      {| EscalationRule.maxResponseTime := "1 hour";
         EscalationRule.escalateTo := "VP of Customer Success";
         EscalationRule.autoEscalateAfter := "2 hours" |}]> ∅).

(** Created 23 hours before the clock reading of [host]. *)
Definition tkt1 : Ticket.t := ticket "TKT-1" "ENT-001" "open" "2025-01-01T01:00:00Z".

Definition db : Database :=
  {| customers := [acme; globex; initech];
     tickets :=
       [ tkt1;
         ticket "TKT-2" "ENT-002" "open" "2025-01-01T01:00:00Z";
         ticket "TKT-3" "ENT-001" "resolved" "2025-01-01T01:00:00Z";
         ticket "TKT-4" "ENT-001" "in_progress" "2025-01-02T00:00:00Z";
         ticket "TKT-5" "ENT-001" "pending" "not a date" ];
     escalationRules := rules |}.



(** A rule table whose Enterprise rule has an empty maximum response time. *)
Definition dbEmptyTarget : Database :=
  {| customers := [acme];
     tickets := [];
     escalationRules :=
       <["Enterprise" :=
           {| EscalationRule.maxResponseTime := "";
              EscalationRule.escalateTo := "Senior Support Engineer";
              EscalationRule.autoEscalateAfter := "8 hours" |}]> ∅ |}.

End Sample.

(** ** The fourth handler *)

(** [z.enum(["Standard", "Growth", "Enterprise", "Enterprise Plus"])]: the
    tiers [check_escalation_rules] is called with. *)
Inductive Tier := Standard | Growth | Enterprise | EnterprisePlus.

Definition tierName (tier : Tier) : string :=
  match tier with
  | Standard => "Standard"
  | Growth => "Growth"
  | Enterprise => "Enterprise"
  | EnterprisePlus => "Enterprise Plus"
  end.

(** [{tier, escalationRules, guidance}] of [check_escalation_rules] *)
Module TierRules.
Record t := mk {
  tier : string;
  escalationRules : property EscalationRule.t;
  guidance : string }.
End TierRules.

(** [{error, validTiers}] of [check_escalation_rules]. [validTiers] is
    [Object.keys(database.escalationRules)], kept as the set of the keys: the
    map does not record the order in which the document lists them. *)
Module UnknownTier.
Record t := mk {
  error : string;
  validTiers : gset string }.
End UnknownTier.

Inductive RulesResult :=
  | RulesMiss (r : UnknownTier.t)
  | RulesHit (r : TierRules.t).

Definition check_escalation_rules (database : Database) (tier : Tier) : RulesResult :=
  let rules := getProperty (escalationRules database) (tierName tier) in
  match rules with
  | Undefined =>
      RulesMiss
        {| UnknownTier.error := "Unknown tier: " +:+ tierName tier;
           UnknownTier.validTiers := dom (escalationRules database) |}
  | _ =>
      RulesHit
        {| TierRules.tier := tierName tier;
           TierRules.escalationRules := rules;
           TierRules.guidance :=
             if includes (tierName tier) "Enterprise"
             then "High-touch support required. Always personalize responses and proactively communicate."
             else "Standard support flow. Escalate if SLA at risk." |}
  end.



(** ** More vocabulary *)

(** The directive of the usage condition and the head of the known-issues
    directive, as [generateSupportGuidance] writes them. *)
Definition upgradeDirective : string :=
  "âš¡ Approaching API limit - Proactively discuss upgrade options".

Definition knownIssuesHead : string := "ðŸ“‹ Known issues to be aware of: ".

(** The four flags [generateSupportGuidance] looks for. *)
Definition knownFlags : list string :=
  [ "HIGH_VALUE"; "APPROACHING_RENEWAL"; "EXPANSION_OPPORTUNITY"; "COMPLIANCE_SENSITIVE" ].

(** [customer] with its [flags] array replaced. *)
Definition withFlags (customer : Customer.t) (flags : list string) : Customer.t :=
  {| Customer.id := Customer.id customer;
     Customer.company := Customer.company customer;
     Customer.tier := Customer.tier customer;
     Customer.accountManager := Customer.accountManager customer;
     Customer.contractValue := Customer.contractValue customer;
     Customer.renewalDate := Customer.renewalDate customer;
     Customer.products := Customer.products customer;
     Customer.apiUsage := Customer.apiUsage customer;
     Customer.knownIssues := Customer.knownIssues customer;
     Customer.supportHistory := Customer.supportHistory customer;
     Customer.contacts := Customer.contacts customer;
     Customer.flags := flags |}.

(** ** The built-ins meet their specifications *)

Lemma startsWith_spec s p :
  startsWith s p = true <-> exists post, s = p +:+ post.
Proof.
  revert s. induction p as [|b p IH]; intros s; simpl.
  - split; [intros _; exists s; reflexivity | intros _; reflexivity].
  - destruct s as [|a s].
    + split; [discriminate | intros [post Hpost]; discriminate].
    + rewrite andb_true_iff, Ascii.eqb_eq, IH. split.
      * intros [-> [post ->]]. exists post. reflexivity.
      * intros [post Hpost]. injection Hpost as -> ->. eauto.
Qed.

Lemma includes_spec s sub : includes s sub = true <-> contains s sub.
Proof.
  unfold contains. induction s as [|a s IH].
  - simpl. rewrite orb_false_r, startsWith_spec. split.
    + intros [post Hpost]. exists "", post. exact Hpost.
    + intros [pre [post Hs]]. destruct pre; [|discriminate]. eauto.
  - cbn [includes]. rewrite orb_true_iff, startsWith_spec, IH. split.
    + intros [[post Hpost] | [pre [post Hs]]].
      * exists "", post. exact Hpost.
      * exists (String a pre), post. simpl. now rewrite Hs.
    + intros [pre [post Hs]]. destruct pre as [|b pre].
      * left. exists post. exact Hs.
      * right. simpl in Hs. injection Hs as _ Hs. eauto.
Qed.

Lemma includes_empty s : includes s "" = true.
Proof. destruct s; reflexivity. Qed.








Lemma Array_includes_spec l x : Array_includes l x = true <-> In x l.
Proof.
  unfold Array_includes. rewrite existsb_exists. split.
  - intros [y [Hy Heq]]. apply String.eqb_eq in Heq. now subst.
  - intros Hin. exists x. split; [exact Hin | apply String.eqb_refl].
Qed.

Lemma Array_includes_reflect l x (msgs : list string) :
  appendsWhen (In x l) msgs (if Array_includes l x then msgs else []).
Proof.
  destruct (Array_includes l x) eqn:E.
  - apply fires. now apply Array_includes_spec.
  - apply skips. intros Hin. apply Array_includes_spec in Hin. congruence.
Qed.

Lemma getProperty_Own {A : Type} (o : gmap string A) (k : string) (a : A) :
  getProperty o k = Own a <-> o !! k = Some a.
Proof.
  unfold getProperty. destruct (o !! k) as [a'|].
  - split; congruence.
  - destruct (Array_includes Object_prototype_members k); split; discriminate.
Qed.

Lemma getProperty_not_Own {A : Type} (o : gmap string A) (k : string) :
  o !! k = None ->
  getProperty o k = Inherited k /\ In k Object_prototype_members \/
  getProperty o k = Undefined /\ ~ In k Object_prototype_members.
Proof.
  intros Hk. unfold getProperty. rewrite Hk.
  destruct (Array_includes Object_prototype_members k) eqn:E.
  - left. split; [reflexivity | now apply Array_includes_spec].
  - right. split; [reflexivity|].
    intros Hin. apply Array_includes_spec in Hin. congruence.
Qed.

Lemma getProperty_Undefined {A : Type} (o : gmap string A) (k : string) :
  getProperty o k = Undefined <-> o !! k = None /\ ~ In k Object_prototype_members.
Proof.
  split.
  - intros Hu. destruct (o !! k) as [a|] eqn:Hk.
    + apply getProperty_Own in Hk. congruence.
    + split; [reflexivity|].
      destruct (getProperty_not_Own o k Hk) as [[Hi _] | [_ Hn]]; [congruence | exact Hn].
  - intros [Hk Hn].
    destruct (getProperty_not_Own o k Hk) as [[_ Hi] | [Hu _]]; [contradiction | exact Hu].
Qed.

Section Scans.
Context {A : Type} (p : A -> bool) (P : A -> Prop).
Hypothesis p_spec : forall x, p x = true <-> P x.

Lemma find_first l x : find p l = Some x -> firstWith P l x.
Proof.
  induction l as [|y l IH]; simpl; [discriminate|].
  destruct (p y) eqn:E.
  - intros [= ->]. exists [], l. repeat split; [now apply p_spec | intros ? []].
  - intros Hfind. destruct (IH Hfind) as (pre & post & -> & HP & Hpre).
    exists (y :: pre), post. repeat split; [exact HP|].
    intros z [<- | Hz]; [|now apply Hpre].
    intros HPy. apply p_spec in HPy. congruence.
Qed.

Lemma find_nothing l : find p l = None -> forall x, In x l -> ~ P x.
Proof.
  intros Hfind x Hin HP. apply p_spec in HP.
  pose proof (List.find_none p l Hfind x Hin). congruence.
Qed.

Lemma first_found l x : firstWith P l x -> find p l = Some x.
Proof.
  intros (pre & post & -> & HP & Hpre).
  induction pre as [|y pre IH]; simpl.
  - apply p_spec in HP. now rewrite HP.
  - destruct (p y) eqn:E.
    + exfalso. apply (Hpre y); [now left | now apply p_spec].
    + apply IH. intros z Hz. apply Hpre. now right.
Qed.

Lemma filter_selects l : selects P l (List.filter p l).
Proof.
  induction l as [|x l IH]; simpl; [constructor|].
  destruct (p x) eqn:E.
  - apply selects_keep; [now apply p_spec | exact IH].
  - apply selects_skip; [|exact IH].
    intros HP. apply p_spec in HP. congruence.
Qed.
End Scans.

Lemma selects_none {A : Type} (P : A -> Prop) l l' :
  selects P l l' -> (forall x, In x l -> ~ P x) -> l' = [].
Proof.
  induction 1 as [|x l l' HP _ _|x l l' _ _ IH]; intros Hnone.
  - reflexivity.
  - exfalso. apply (Hnone x); [now left | exact HP].
  - apply IH. intros y Hy. apply Hnone. now right.
Qed.

Lemma selects_In {A : Type} (P : A -> Prop) l l' :
  selects P l l' -> forall x, In x l' <-> In x l /\ P x.
Proof.
  induction 1 as [|x l l' HP _ IH|x l l' HP _ IH]; intros y; simpl.
  - tauto.
  - rewrite IH. split.
    + intros [<- | [Hin HPy]]; auto.
    + intros [[<- | Hin] HPy]; auto.
  - rewrite IH. split.
    + intros [Hin HPy]; auto.
    + intros [[<- | Hin] HPy]; [contradiction | auto].
Qed.

Lemma knownIssues_nonempty {A : Type} (l : list A) :
  (0 <? length l)%nat = true <-> l <> [].
Proof.
  destruct l as [|x l]; simpl; split; intros Hl;
    [discriminate | congruence | discriminate | reflexivity].
Qed.

Lemma laterConditions_holds c :
  laterConditions c (flagGuidance c ++ usageGuidance c ++ knownIssuesGuidance c).
Proof.
  unfold laterConditions, flagGuidance.
  do 4 (eexists (if Array_includes (Customer.flags c) _ then _ else [])).
  exists (usageGuidance c), (knownIssuesGuidance c). split.
  { rewrite <- !app_assoc. reflexivity. }
  repeat split; try apply Array_includes_reflect.
  - unfold usageGuidance.
    destruct (Qle_bool _ _) eqn:E.
    + apply fires. now apply Qle_bool_iff.
    + apply skips. intros Hle. apply Qle_bool_iff in Hle. congruence.
  - unfold knownIssuesGuidance.
    destruct (0 <? _)%nat eqn:E.
    + apply fires. now apply knownIssues_nonempty.
    + apply skips. intros Hne. apply knownIssues_nonempty in Hne. congruence.
Qed.

(** ** Support guidance *)

(** C2: the priority level of the support guidance is "HIGH" exactly when the
    customer's tier contains "Enterprise" as a substring, and it is
    "STANDARD" in every other case. *)
Theorem priorityLevel_HIGH_iff_Enterprise (db : Database) (c : Customer.t) :
  let level := SupportGuidance.priorityLevel (generateSupportGuidance db c) in
  (level = "HIGH" <-> contains (Customer.tier c) "Enterprise") /\
  (~ contains (Customer.tier c) "Enterprise" -> level = "STANDARD").
Proof.
  simpl. rewrite <- includes_spec.
  destruct (includes (Customer.tier c) "Enterprise"); split;
    try split; congruence.
Qed.

(** C4: the guidance list is built by evaluating the eight conditions in the
    order 1 to 8, each appending its directives when it holds; for a customer
    of tier "Enterprise Plus" it begins with the three strategic-account
    directives, followed by what the flag, usage and known-issues conditions
    contribute. *)
Theorem keyGuidance_built_in_order (db : Database) (c : Customer.t) :
  let guidance := SupportGuidance.keyGuidance (generateSupportGuidance db c) in
  builtByConditions c guidance /\
  (Customer.tier c = "Enterprise Plus" ->
   exists rest, guidance = strategicDirectives ++ rest /\ laterConditions c rest).
Proof.
  simpl. split.
  - unfold builtByConditions, tierGuidance.
    destruct (String.eqb (Customer.tier c) "Enterprise Plus") eqn:EP.
    + apply String.eqb_eq in EP.
      exists strategicDirectives, [], (flagGuidance c ++ usageGuidance c ++ knownIssuesGuidance c).
      repeat split; [now apply fires | apply skips; tauto | apply laterConditions_holds].
    + apply String.eqb_neq in EP.
      destruct (String.eqb (Customer.tier c) "Enterprise") eqn:E.
      * apply String.eqb_eq in E.
        exists [], enterpriseDirectives, (flagGuidance c ++ usageGuidance c ++ knownIssuesGuidance c).
        repeat split; [now apply skips | now apply fires | apply laterConditions_holds].
      * apply String.eqb_neq in E.
        exists [], [], (flagGuidance c ++ usageGuidance c ++ knownIssuesGuidance c).
        repeat split; [now apply skips | apply skips; tauto | apply laterConditions_holds].
  - intros EP. unfold tierGuidance. rewrite EP. simpl.
    eexists. split; [reflexivity | apply laterConditions_holds].
Qed.

(** C6, as the code has it: the response time target is the maximum response
    time of the rule of the customer's tier when that rule exists and its
    maximum response time is not the empty string; it is "24 hours" when the
    tier has no rule, and also when the rule's maximum response time is
    empty. *)
Theorem responseTimeTarget_rule_or_default (db : Database) (c : Customer.t) :
  let target := SupportGuidance.responseTimeTarget (generateSupportGuidance db c) in
  match escalationRules db !! Customer.tier c with
  | Some rule =>
      (EscalationRule.maxResponseTime rule <> "" ->
       target = EscalationRule.maxResponseTime rule) /\
      (EscalationRule.maxResponseTime rule = "" -> target = "24 hours")
  | None => target = "24 hours"
  end.
Proof.
  cbn [generateSupportGuidance SupportGuidance.responseTimeTarget].
  destruct (escalationRules db !! Customer.tier c) as [rule|] eqn:Hrule.
  - apply getProperty_Own in Hrule. rewrite Hrule. cbn [optionalField or_default].
    destruct (String.eqb (EscalationRule.maxResponseTime rule) "") eqn:E.
    + apply String.eqb_eq in E. split; [congruence | reflexivity].
    + apply String.eqb_neq in E. split; [reflexivity | congruence].
  - destruct (getProperty_not_Own _ _ Hrule) as [[-> _] | [-> _]]; reflexivity.
Qed.

(** C6, as stated, fails: the Enterprise rule of [Sample.dbEmptyTarget]
    exists, yet the target computed for an Enterprise customer is not that
    rule's maximum response time. *)
Lemma responseTimeTarget_empty_maxResponseTime :
  exists rule,
    escalationRules Sample.dbEmptyTarget !! Customer.tier Sample.acme = Some rule /\
    SupportGuidance.responseTimeTarget
      (generateSupportGuidance Sample.dbEmptyTarget Sample.acme)
    <> EscalationRule.maxResponseTime rule.
Proof.
  eexists. split; [reflexivity|]. vm_compute. discriminate.
Qed.

(** ** Response guidance *)

Lemma id_eqb_spec customerId c :
  String.eqb (Customer.id c) customerId = true <-> hasId customerId c.
Proof. apply String.eqb_eq. Qed.

(** C1: what the code does where the claim asks for a reported fault. When
    the rule table has no member under the tier of the customer found under
    [customerId] (reading it gives [undefined]),
    [generateResponseGuidance] with issue type "escalation" throws a
    [TypeError], and [get_response_guidance] lets it escape: no payload is
    returned, neither guidance nor a not-found result. *)
Theorem escalation_without_rule_throws `{Host} (db : Database)
    (customerId : string) (c : Customer.t) :
  firstWith (hasId customerId) (customers db) c ->
  getProperty (escalationRules db) (Customer.tier c) = Undefined ->
  generateResponseGuidance db c "escalation" =
    Throw (TypeError "Cannot read properties of undefined (reading 'escalateTo')") /\
  get_response_guidance db customerId "escalation" =
    Throw (TypeError "Cannot read properties of undefined (reading 'escalateTo')").
Proof.
  intros Hfirst Hrule.
  assert (Hthrow : generateResponseGuidance db c "escalation" =
    Throw (TypeError "Cannot read properties of undefined (reading 'escalateTo')")).
  { unfold generateResponseGuidance. cbn [String.eqb Ascii.eqb Bool.eqb orb].
    now rewrite Hrule. }
  split; [exact Hthrow|].
  unfold get_response_guidance.
  rewrite (first_found _ _ (id_eqb_spec customerId) _ _ Hfirst).
  now rewrite Hthrow.
Qed.

Lemma escalation_without_rule_throws_witness :
  @generateResponseGuidance Sample.host Sample.db Sample.initech "escalation" =
    Throw (TypeError "Cannot read properties of undefined (reading 'escalateTo')") /\
  @get_response_guidance Sample.host Sample.db "STR-001" "escalation" =
    Throw (TypeError "Cannot read properties of undefined (reading 'escalateTo')").
Proof.
  apply (@escalation_without_rule_throws Sample.host Sample.db "STR-001" Sample.initech).
  - exists [Sample.acme; Sample.globex], [].
    split; [reflexivity|]. split; [reflexivity|].
    intros y [<- | [<- | []]]; discriminate.
  - reflexivity.
Defined.

(** C7, as the code has it: whenever guidance is produced (the issue type is
    not "escalation", or the tier has an escalation rule), the tone guidance
    starts with three fixed lines when the tier contains "Enterprise" and
    with two other fixed lines when it does not; the three escalation lines
    follow for issue type "escalation", and nothing follows otherwise. *)
Theorem toneGuidance_by_tier `{Host} (db : Database) (c : Customer.t)
    (issueType : string) :
  issueType <> "escalation" \/ is_Some (escalationRules db !! Customer.tier c) ->
  exists g extra,
    generateResponseGuidance db c issueType = Normal g /\
    (issueType = "escalation" /\ extra = escalationTone \/
     issueType <> "escalation" /\ extra = []) /\
    (contains (Customer.tier c) "Enterprise" /\
     ResponseGuidance.toneGuidance g =
       [ "Use professional, consultative tone";
         "Reference their specific use case if known";
         "Offer direct line or meeting for complex issues" ] ++ extra \/
     ~ contains (Customer.tier c) "Enterprise" /\
     ResponseGuidance.toneGuidance g =
       [ "Friendly and helpful tone"; "Clear, step-by-step guidance" ] ++ extra).
Proof.
  intros Hok.
  assert (Htone : forall extra,
    contains (Customer.tier c) "Enterprise" /\
    tierTone c ++ extra =
      [ "Use professional, consultative tone";
        "Reference their specific use case if known";
        "Offer direct line or meeting for complex issues" ] ++ extra \/
    ~ contains (Customer.tier c) "Enterprise" /\
    tierTone c ++ extra =
      [ "Friendly and helpful tone"; "Clear, step-by-step guidance" ] ++ extra).
  { intros extra. unfold tierTone. rewrite <- includes_spec.
    destruct (includes (Customer.tier c) "Enterprise");
      [left | right]; split; congruence. }
  unfold generateResponseGuidance.
  destruct (String.eqb issueType "billing") eqn:Eb.
  { apply String.eqb_eq in Eb. subst issueType.
    eexists _, []. split; [reflexivity|]. split; [right; split; [discriminate | reflexivity]|].
    cbn [ResponseGuidance.toneGuidance]. rewrite <- (app_nil_r (tierTone c)) at 1 2.
    apply Htone. }
  destruct (String.eqb issueType "api" || String.eqb issueType "technical") eqn:Et.
  { assert (issueType <> "escalation").
    { intros ->. discriminate. }
    eexists _, []. split; [reflexivity|]. split; [right; split; [assumption | reflexivity]|].
    cbn [ResponseGuidance.toneGuidance]. rewrite <- (app_nil_r (tierTone c)) at 1 2.
    apply Htone. }
  destruct (String.eqb issueType "escalation") eqn:Ee.
  - apply String.eqb_eq in Ee. subst issueType.
    destruct Hok as [Hne | [rule Hrule]]; [congruence|].
    apply getProperty_Own in Hrule. rewrite Hrule. eexists _, escalationTone. split; [reflexivity|].
    split; [left; split; reflexivity|].
    cbn [ResponseGuidance.toneGuidance]. apply Htone.
  - apply String.eqb_neq in Ee.
    eexists _, []. split; [reflexivity|]. split; [right; split; [assumption | reflexivity]|].
    cbn [ResponseGuidance.toneGuidance]. rewrite <- (app_nil_r (tierTone c)) at 1 2.
    apply Htone.
Qed.

Lemma toneGuidance_by_tier_witness :
  exists g extra,
    @generateResponseGuidance Sample.host Sample.db Sample.acme "escalation" = Normal g /\
    ("escalation" = "escalation" /\ extra = escalationTone \/
     "escalation" <> "escalation" /\ extra = []) /\
    (contains (Customer.tier Sample.acme) "Enterprise" /\
     ResponseGuidance.toneGuidance g =
       [ "Use professional, consultative tone";
         "Reference their specific use case if known";
         "Offer direct line or meeting for complex issues" ] ++ extra \/
     ~ contains (Customer.tier Sample.acme) "Enterprise" /\
     ResponseGuidance.toneGuidance g =
       [ "Friendly and helpful tone"; "Clear, step-by-step guidance" ] ++ extra).
Proof.
  apply (@toneGuidance_by_tier Sample.host Sample.db Sample.acme "escalation").
  right. vm_compute. eauto.
Defined.

(** C7, as stated, fails: for an Enterprise customer and issue type "billing"
    guidance is produced, nothing escalation-specific is added, and the tone
    guidance has three lines, so it is no list of exactly two lines. *)
Lemma toneGuidance_Enterprise_three_lines :
  exists g,
    @generateResponseGuidance Sample.host Sample.db Sample.acme "billing" = Normal g /\
    contains (Customer.tier Sample.acme) "Enterprise" /\
    length (ResponseGuidance.toneGuidance g) = 3%nat /\
    forall line1 line2 : string, ResponseGuidance.toneGuidance g <> [line1; line2].
Proof.
  eexists. split; [reflexivity|]. split; [|split].
  - exists "", "". reflexivity.
  - reflexivity.
  - intros line1 line2. cbn. discriminate.
Qed.

(** ** Customer lookup *)

Lemma matchesQuery_spec `{Host} query c :
  matchesQuery (toLowerCase query) c = true <-> matchesCustomer query c.
Proof.
  unfold matchesQuery, matchesCustomer.
  now rewrite orb_true_iff, String.eqb_eq, includes_spec.
Qed.




(** C10: for the empty query, [lookup_customer] returns the first stored
    customer with [found] true whenever the collection is not empty. *)
Theorem lookup_customer_empty_query `{Host} (db : Database)
    (c : Customer.t) (rest : list Customer.t) :
  customers db = c :: rest ->
  lookup_customer db "" = LookupHit (customerContext db c) /\
  CustomerContext.found (customerContext db c) = true.
Proof.
  intros Hdb. unfold lookup_customer, matchesQuery. rewrite Hdb.
  rewrite (toLowerCase_ascii "" eq_refl).
  cbn [asciiLowerCase find]. rewrite includes_empty, orb_true_r. split; reflexivity.
Qed.

Lemma lookup_customer_empty_query_witness :
  @lookup_customer Sample.host Sample.db "" =
    LookupHit (@customerContext Sample.host Sample.db Sample.acme) /\
  CustomerContext.found (@customerContext Sample.host Sample.db Sample.acme) = true.
Proof.
  apply (@lookup_customer_empty_query Sample.host Sample.db Sample.acme
           [Sample.globex; Sample.initech]).
  reflexivity.
Defined.

(** ** Open tickets *)

Lemma isOpenStatus_spec status : isOpenStatus status = true <-> openStatus status.
Proof.
  unfold isOpenStatus, openStatus. rewrite Array_includes_spec. simpl.
  intuition congruence.
Qed.

Lemma isOpenTicketOf_spec customerId t :
  isOpenTicketOf customerId t = true <-> qualifies customerId t.
Proof.
  unfold isOpenTicketOf, qualifies.
  now rewrite andb_true_iff, String.eqb_eq, isOpenStatus_spec.
Qed.

Lemma openStatus_not_done status :
  openStatus status -> status <> "resolved" /\ status <> "closed".
Proof. intros [-> | [-> | ->]]; split; discriminate. Qed.

Lemma find_hasId `{Host} (db : Database) (customerId : string) :
  (exists c, In c (customers db) /\ Customer.id c = customerId) ->
  exists c, find (fun c => String.eqb (Customer.id c) customerId) (customers db) = Some c.
Proof.
  intros [c [Hin Hid]].
  destruct (find _ (customers db)) as [c'|] eqn:Hfind; [eauto|].
  exfalso. apply (find_nothing _ _ (id_eqb_spec customerId) _ Hfind c Hin Hid).
Qed.


Lemma fmap_imap_field {A B C : Type} (f : nat -> A -> B) (g : B -> C) (h : A -> C)
    (l : list A) :
  (forall i x, g (f i x) = h x) -> g <$> imap f l = h <$> l.
Proof.
  revert f. induction l as [|x l IH]; intros f Hf; [reflexivity|].
  cbn. rewrite Hf. f_equal. apply IH. intros i y. apply Hf.
Qed.

Lemma ceilDays_spec (ms : Z) :
  msPerDay * (ceilDays ms - 1) < ms <= msPerDay * ceilDays ms.
Proof.
  unfold ceilDays. change msPerDay with 86400000.
  pose proof (Z.div_mod (- ms) 86400000 ltac:(lia)).
  pose proof (Z.mod_pos_bound (- ms) 86400000 ltac:(lia)).
  lia.
Qed.

(** C5: for the id of a stored customer, [get_open_tickets] returns exactly
    the tickets of that id whose status is open, pending or in_progress, in
    stored order; no returned ticket is resolved or closed; and when no
    ticket qualifies the list is empty and the count is 0, still within a
    regular summary. *)
Theorem get_open_tickets_exactly_open `{Host} (db : Database) (customerId : string) :
  (exists c, In c (customers db) /\ Customer.id c = customerId) ->
  exists r open,
    get_open_tickets db customerId = TicketsHit r /\
    selects (qualifies customerId) (tickets db) open /\
    TicketSummary.tickets r = imap ticketView open /\
    TicketView.id <$> TicketSummary.tickets r = Ticket.id <$> open /\
    TicketView.status <$> TicketSummary.tickets r = Ticket.status <$> open /\
    TicketSummary.openTicketCount r = length open /\
    (forall v, In v (TicketSummary.tickets r) ->
       TicketView.status v <> "resolved" /\ TicketView.status v <> "closed") /\
    ((forall t, In t (tickets db) -> ~ qualifies customerId t) ->
       TicketSummary.tickets r = [] /\ TicketSummary.openTicketCount r = 0%nat).
Proof.
  intros Hid. destruct (find_hasId db customerId Hid) as [c Hfind].
  unfold get_open_tickets. rewrite Hfind.
  pose proof (filter_selects _ _ (isOpenTicketOf_spec customerId) (tickets db)) as Hsel.
  set (open := List.filter (isOpenTicketOf customerId) (tickets db)) in *.
  eexists _, open. split; [reflexivity|]. cbn [TicketSummary.tickets TicketSummary.openTicketCount].
  split; [exact Hsel|]. split; [reflexivity|].
  split; [now apply fmap_imap_field|].
  split; [now apply fmap_imap_field|].
  split; [reflexivity|]. split.
  - intros v Hv. apply list_elem_of_In, elem_of_lookup_imap_1 in Hv as (i & t & -> & Ht).
    apply openStatus_not_done. cbn [ticketView TicketView.status].
    apply list_elem_of_lookup_2, list_elem_of_In in Ht.
    apply (selects_In _ _ _ Hsel) in Ht. apply Ht.
  - intros Hnone. now rewrite (selects_none _ _ _ Hsel Hnone).
Qed.

Lemma get_open_tickets_exactly_open_witness :
  exists r open,
    @get_open_tickets Sample.host Sample.db "ENT-001" = TicketsHit r /\
    selects (qualifies "ENT-001") (tickets Sample.db) open /\
    TicketSummary.tickets r = imap (@ticketView Sample.host) open /\
    TicketView.id <$> TicketSummary.tickets r = Ticket.id <$> open /\
    TicketView.status <$> TicketSummary.tickets r = Ticket.status <$> open /\
    TicketSummary.openTicketCount r = length open /\
    (forall v, In v (TicketSummary.tickets r) ->
       TicketView.status v <> "resolved" /\ TicketView.status v <> "closed") /\
    ((forall t, In t (tickets Sample.db) -> ~ qualifies "ENT-001" t) ->
       TicketSummary.tickets r = [] /\ TicketSummary.openTicketCount r = 0%nat).
Proof.
  apply (@get_open_tickets_exactly_open Sample.host Sample.db "ENT-001").
  exists Sample.acme. split; [simpl; tauto | reflexivity].
Defined.

(** C8: the [ageInDays] of a returned ticket is the ceiling of the time
    between its creation and the clock reading taken for it, in days: the
    whole number [d] with [d - 1 < (now - createdAt) / day <= d]. It is 0 for
    a ticket created at that very reading and 1 for one created 23 hours
    before it. *)
Theorem ageInDays_is_ceiling `{Host} (db : Database) (customerId : string)
    (r : TicketSummary.t) (k : nat) (v : TicketView.t) :
  get_open_tickets db customerId = TicketsHit r ->
  TicketSummary.tickets r !! k = Some v ->
  exists t,
    List.filter (isOpenTicketOf customerId) (tickets db) !! k = Some t /\
    TicketView.id v = Ticket.id t /\
    match getTime (Ticket.createdAt t) with
    | Some created =>
        exists d,
          TicketView.ageInDays v = Some d /\
          msPerDay * (d - 1) < Date_now k - created <= msPerDay * d /\
          (created = Date_now k -> d = 0) /\
          (Date_now k - created = 23 * 60 * 60 * 1000 -> d = 1)
    | None => TicketView.ageInDays v = None
    end.
Proof.
  unfold get_open_tickets.
  destruct (find _ (customers db)) as [c|]; [|discriminate].
  intros [= <-]. cbn [TicketSummary.tickets].
  rewrite list_lookup_imap_Some. intros (t & Ht & ->).
  exists t. split; [exact Ht|]. split; [reflexivity|].
  cbn [ticketView TicketView.ageInDays].
  destruct (getTime (Ticket.createdAt t)) as [created|]; [|reflexivity].
  exists (ceilDays (Date_now k - created)). split; [reflexivity|].
  pose proof (ceilDays_spec (Date_now k - created)) as Hceil.
  change msPerDay with 86400000 in *.
  repeat split; lia.
Qed.

Lemma ageInDays_is_ceiling_witness :
  exists t,
    List.filter (isOpenTicketOf "ENT-001") (tickets Sample.db) !! 0%nat = Some t /\
    TicketView.id (@ticketView Sample.host 0 Sample.tkt1) = Ticket.id t /\
    match @getTime Sample.host (Ticket.createdAt t) with
    | Some created =>
        exists d,
          TicketView.ageInDays (@ticketView Sample.host 0 Sample.tkt1) = Some d /\
          msPerDay * (d - 1) < @Date_now Sample.host 0 - created <= msPerDay * d /\
          (created = @Date_now Sample.host 0 -> d = 0) /\
          (@Date_now Sample.host 0 - created = 23 * 60 * 60 * 1000 -> d = 1)
    | None => TicketView.ageInDays (@ticketView Sample.host 0 Sample.tkt1) = None
    end.
Proof.
  eapply (@ageInDays_is_ceiling Sample.host Sample.db "ENT-001" _ 0%nat).
  - reflexivity.
  - reflexivity.
Defined.

(** ** Matching ids: exact in two handlers, ignoring case in the third *)

Lemma firstWith_unique {A : Type} (p : A -> bool) (P : A -> Prop) (l : list A) (x y : A) :
  (forall z, p z = true <-> P z) -> firstWith P l x -> firstWith P l y -> x = y.
Proof.
  intros Hp Hx Hy.
  apply (first_found p P Hp) in Hx. apply (first_found p P Hp) in Hy. congruence.
Qed.




(** ** Scenarios of the specification, on the sample data *)

Example tiers_Enterprise_and_Enterprise_Plus_are_HIGH :
  SupportGuidance.priorityLevel (generateSupportGuidance Sample.db Sample.acme) = "HIGH" /\
  SupportGuidance.priorityLevel (generateSupportGuidance Sample.db Sample.globex) = "HIGH" /\
  SupportGuidance.priorityLevel (generateSupportGuidance Sample.db Sample.initech) = "STANDARD".
Proof. repeat split. Qed.

Example acme_support_guidance :
  let g := generateSupportGuidance Sample.db Sample.acme in
  SupportGuidance.responseTimeTarget g = "4 hours" /\
  length (SupportGuidance.keyGuidance g) = 6%nat /\
  take 2 (SupportGuidance.keyGuidance g) = enterpriseDirectives.
Proof. repeat split. Qed.

Example globex_support_guidance :
  take 3 (SupportGuidance.keyGuidance (generateSupportGuidance Sample.db Sample.globex)) =
  strategicDirectives.
Proof. reflexivity. Qed.

Example target_defaults_without_rule :
  SupportGuidance.responseTimeTarget (generateSupportGuidance Sample.db Sample.initech) =
  "24 hours".
Proof. reflexivity. Qed.

Example lookup_is_case_insensitive :
  @lookup_customer Sample.host Sample.db "acme corp" =
    LookupHit (@customerContext Sample.host Sample.db Sample.acme) /\
  @lookup_customer Sample.host Sample.db "ent-002" =
    LookupHit (@customerContext Sample.host Sample.db Sample.globex).
Proof. split; reflexivity. Qed.

Example lookup_Nonexistent_Inc :
  @lookup_customer Sample.host Sample.db "Nonexistent Inc" =
  LookupMiss
    {| QueryNotFound.found := false;
       QueryNotFound.message :=
         "No customer found matching " +:+ dquote +:+ "Nonexistent Inc" +:+ dquote;
       QueryNotFound.suggestion :=
         "Try searching by company name or customer ID (e.g., ENT-001)" |}.
Proof. reflexivity. Qed.

Example open_tickets_of_acme :
  match @get_open_tickets Sample.host Sample.db "ENT-001" with
  | TicketsHit r =>
      TicketView.id <$> TicketSummary.tickets r = ["TKT-1"; "TKT-4"; "TKT-5"] /\
      TicketView.ageInDays <$> TicketSummary.tickets r = [Some 1; Some 0; None] /\
      TicketSummary.openTicketCount r = 3%nat
  | TicketsMiss _ => False
  end.
Proof. vm_compute. repeat split. Qed.

Example no_open_ticket_is_no_error :
  match @get_open_tickets Sample.host Sample.db "STR-001" with
  | TicketsHit r =>
      TicketSummary.tickets r = [] /\ TicketSummary.openTicketCount r = 0%nat
  | TicketsMiss _ => False
  end.
Proof. vm_compute. repeat split. Qed.

Example ceilDays_boundaries :
  ceilDays 0 = 0 /\ ceilDays 1 = 1 /\ ceilDays (23 * 60 * 60 * 1000) = 1 /\
  ceilDays msPerDay = 1 /\ ceilDays (msPerDay + 1) = 2 /\ ceilDays (-1) = 0.
Proof. repeat split. Qed.

(** * Further properties of the handlers *)

(** ** Usage status and renewal status of a looked-up customer *)

Lemma Qle_bool_false (x y : Q) : Qle_bool x y = false <-> (y < x)%Q.
Proof.
  split.
  - intros E. apply Qnot_le_lt. intros Hle. apply Qle_bool_iff in Hle. congruence.
  - intros Hlt. destruct (Qle_bool x y) eqn:E; [|reflexivity].
    apply Qle_bool_iff in E. lra.
Qed.

Lemma lookup_hit_inv `{Host} (db : Database) (query : string) (ctx : CustomerContext.t) :
  lookup_customer db query = LookupHit ctx ->
  exists c, firstWith (matchesCustomer query) (customers db) c /\ ctx = customerContext db c.
Proof.
  unfold lookup_customer.
  destruct (find _ (customers db)) as [c|] eqn:Hfind; [|discriminate].
  intros [= <-]. exists c. split; [|reflexivity].
  apply (find_first _ _ (matchesQuery_spec query) _ _ Hfind).
Qed.


(** X1: the usage status reported by [lookup_customer] splits the
    utilization percentages into three disjoint ranges: "APPROACHING_LIMIT"
    from 90 up, "HEALTHY" from 75 up to but excluding 90, "UNDERUTILIZED"
    below 75. *)
Theorem usageStatus_thresholds (u : number) :
  (usageStatus u = "APPROACHING_LIMIT" <-> (90 <= u)%Q) /\
  (usageStatus u = "HEALTHY" <-> (75 <= u)%Q /\ (u < 90)%Q) /\
  (usageStatus u = "UNDERUTILIZED" <-> (u < 75)%Q).
Proof.
  unfold usageStatus.
  destruct (Qle_bool (90 # 1) u) eqn:E90; [|destruct (Qle_bool (75 # 1) u) eqn:E75].
  - apply Qle_bool_iff in E90.
    repeat split; try discriminate; intros; lra.
  - apply Qle_bool_false in E90. apply Qle_bool_iff in E75.
    repeat split; try discriminate; intros; lra.
  - apply Qle_bool_false in E90. apply Qle_bool_false in E75.
    repeat split; try discriminate; intros; lra.
Qed.

Lemma In_optional_block (b : bool) (msg x : string) :
  In x (if b then [msg] else []) -> b = true /\ x = msg.
Proof. destruct b; simpl; [intros [<- | []]; now split | intros []]. Qed.

Lemma upgradeDirective_only_from_usage (c : Customer.t) :
  ~ In upgradeDirective (tierGuidance c) /\
  ~ In upgradeDirective (flagGuidance c) /\
  ~ In upgradeDirective (knownIssuesGuidance c).
Proof.
  unfold tierGuidance, flagGuidance, knownIssuesGuidance, upgradeDirective.
  repeat split.
  - repeat destruct (String.eqb _ _); simpl; intuition discriminate.
  - rewrite !in_app_iff.
    intros [Hin | [Hin | [Hin | Hin]]];
      apply In_optional_block in Hin as [_ Heq]; discriminate.
  - destruct (0 <? _)%nat; simpl; intuition discriminate.
Qed.

(** X2: in the answer of [lookup_customer], the usage status is
    "APPROACHING_LIMIT" exactly when the key guidance carries the directive to
    discuss upgrade options: the two are computed apart and never disagree. *)
Theorem status_agrees_with_upgrade_directive `{Host} (db : Database)
    (query : string) (ctx : CustomerContext.t) :
  lookup_customer db query = LookupHit ctx ->
  (ApiUsageStatus.status (CustomerView.apiUsage (CustomerContext.customer ctx)) =
     "APPROACHING_LIMIT" <->
   In upgradeDirective (SupportGuidance.keyGuidance (CustomerContext.supportGuidance ctx))).
Proof.
  intros Hhit. destruct (lookup_hit_inv db query ctx Hhit) as (c & _ & ->).
  cbn [customerContext CustomerContext.customer CustomerView.apiUsage
       ApiUsageStatus.status CustomerContext.supportGuidance
       generateSupportGuidance SupportGuidance.keyGuidance].
  destruct (upgradeDirective_only_from_usage c) as (Ht & Hf & Hk).
  destruct (usageStatus_thresholds (ApiUsage.utilizationPercent (Customer.apiUsage c)))
    as (Hstatus & _).
  rewrite Hstatus, !in_app_iff. unfold usageGuidance.
  destruct (Qle_bool _ _) eqn:E.
  - apply Qle_bool_iff in E. split; [intros _ | intros _; exact E].
    right. right. left. now left.
  - apply Qle_bool_false in E. split; [intros Hle; lra|].
    simpl. tauto.
Qed.

Lemma status_agrees_with_upgrade_directive_witness :
  ApiUsageStatus.status (CustomerView.apiUsage (CustomerContext.customer
    (@customerContext Sample.host Sample.db Sample.acme))) = "APPROACHING_LIMIT" <->
  In upgradeDirective (SupportGuidance.keyGuidance (CustomerContext.supportGuidance
    (@customerContext Sample.host Sample.db Sample.acme))).
Proof.
  apply (@status_agrees_with_upgrade_directive Sample.host Sample.db "acme").
  reflexivity.
Defined.

Lemma ceilDays_le_iff (ms n : Z) : ceilDays ms <= n <-> ms <= n * msPerDay.
Proof.
  pose proof (ceilDays_spec ms) as Hceil.
  change msPerDay with 86400000 in *. lia.
Qed.

(** X3: in the answer of [lookup_customer], the renewal is flagged urgent
    exactly when the renewal date parses and lies at most 30 days (to the
    millisecond) after the clock reading, past dates included; a date that
    does not parse gives no day count and is never urgent. *)
Theorem renewal_urgent_iff_within_30_days `{Host} (db : Database)
    (query : string) (ctx : CustomerContext.t) :
  lookup_customer db query = LookupHit ctx ->
  let status := CustomerView.renewalStatus (CustomerContext.customer ctx) in
  (RenewalStatus.urgent status = true <->
   exists renewal,
     getTime (RenewalStatus.date status) = Some renewal /\
     renewal - Date_now 0 <= 30 * msPerDay) /\
  (getTime (RenewalStatus.date status) = None ->
   RenewalStatus.daysUntil status = None /\ RenewalStatus.urgent status = false).
Proof.
  intros Hhit. destruct (lookup_hit_inv db query ctx Hhit) as (c & _ & ->).
  cbn [customerContext CustomerContext.customer CustomerView.renewalStatus
       RenewalStatus.urgent RenewalStatus.date RenewalStatus.daysUntil].
  destruct (getTime (Customer.renewalDate c)) as [renewal|]; cbn.
  - split; [|discriminate]. rewrite Z.leb_le, ceilDays_le_iff. split.
    + intros Hle. exists renewal. split; [reflexivity | exact Hle].
    + intros (r & [= <-] & Hle). exact Hle.
  - split; [|intros _; split; reflexivity].
    split; [discriminate | intros (r & Hr & _); discriminate].
Qed.

Lemma renewal_urgent_iff_within_30_days_witness :
  let status := CustomerView.renewalStatus (CustomerContext.customer
    (@customerContext Sample.host Sample.db Sample.acme)) in
  (RenewalStatus.urgent status = true <->
   exists renewal,
     @getTime Sample.host (RenewalStatus.date status) = Some renewal /\
     renewal - @Date_now Sample.host 0 <= 30 * msPerDay) /\
  (@getTime Sample.host (RenewalStatus.date status) = None ->
   RenewalStatus.daysUntil status = None /\ RenewalStatus.urgent status = false).
Proof.
  apply (@renewal_urgent_iff_within_30_days Sample.host Sample.db "acme").
  reflexivity.
Defined.

(** ** Finding customers *)



(** ** The handlers that take an id *)

Lemma find_hasId_first (db : Database) (customerId : string) (c : Customer.t) :
  find (fun c => String.eqb (Customer.id c) customerId) (customers db) = Some c <->
  firstWith (hasId customerId) (customers db) c.
Proof.
  split.
  - apply (find_first _ _ (id_eqb_spec customerId)).
  - apply (first_found _ _ (id_eqb_spec customerId)).
Qed.

Lemma generateResponseGuidance_throws `{Host} (db : Database) (c : Customer.t)
    (issueType : string) :
  (exists e, generateResponseGuidance db c issueType = Throw e) <->
  issueType = "escalation" /\
  getProperty (escalationRules db) (Customer.tier c) = Undefined.
Proof.
  unfold generateResponseGuidance.
  destruct (String.eqb issueType "billing") eqn:Eb.
  { apply String.eqb_eq in Eb. subst.
    split; [intros [e He]; discriminate | intros [He _]; discriminate]. }
  destruct (String.eqb issueType "api" || String.eqb issueType "technical") eqn:Et.
  { split; [intros [e He]; discriminate | intros [-> _]; discriminate]. }
  destruct (String.eqb issueType "escalation") eqn:Ee.
  - apply String.eqb_eq in Ee.
    destruct (getProperty (escalationRules db) (Customer.tier c)).
    + split; [intros [e He]; discriminate | intros [_ Hr]; discriminate].
    + split; [intros [e He]; discriminate | intros [_ Hr]; discriminate].
    + split; [intros _; now split | intros _; eauto].
  - apply String.eqb_neq in Ee.
    split; [intros [e He]; discriminate | intros [He _]; contradiction].
Qed.

(** X6: [get_response_guidance] has exactly one exceptional outcome: it
    throws if and only if the issue type is "escalation" and the tier of the
    customer stored under the id names no member of the rule table, neither
    a rule of the table nor a member the table inherits as an object. An
    unknown id, any other issue type, and a tier that names an inherited
    member never throw. *)
Theorem get_response_guidance_throws_iff `{Host} (db : Database)
    (customerId issueType : string) :
  (exists e, get_response_guidance db customerId issueType = Throw e) <->
  issueType = "escalation" /\
  exists c,
    firstWith (hasId customerId) (customers db) c /\
    escalationRules db !! Customer.tier c = None /\
    ~ In (Customer.tier c) Object_prototype_members.
Proof.
  unfold get_response_guidance.
  destruct (find _ (customers db)) as [c|] eqn:Hfind.
  - apply find_hasId_first in Hfind.
    pose proof (generateResponseGuidance_throws db c issueType) as Hthrow.
    rewrite getProperty_Undefined in Hthrow. split.
    + intros [e He].
      destruct (generateResponseGuidance db c issueType) as [g|e'] eqn:Hg; [discriminate|].
      destruct Hthrow as [Hthrow _]. destruct (Hthrow (ex_intro _ e' eq_refl)) as [Hi Hr].
      split; [exact Hi | exists c; now split].
    + intros (Hi & c' & Hfirst & Hrule).
      assert (c' = c) as ->
        by exact (firstWith_unique _ _ _ _ _ (id_eqb_spec customerId) Hfirst Hfind).
      destruct Hthrow as [_ Hthrow]. destruct (Hthrow (conj Hi Hrule)) as [e He].
      rewrite He. eauto.
  - split; [intros [e He]; discriminate|].
    intros (_ & c & Hfirst & _). apply find_hasId_first in Hfirst. congruence.
Qed.

(** X7: [get_open_tickets] and [get_response_guidance] resolve an id to the
    same customer. Either both answer with the same not-found payload, or
    the id is stored and the ticket summary carries the id, the company, the
    tier and the escalation rule of the first customer stored under it, and
    the response guidance, when one is produced, names the same company and
    tier and has that rule as its escalation path. *)
Theorem id_handlers_resolve_same_customer `{Host} (db : Database)
    (customerId issueType : string) :
  (get_open_tickets db customerId = TicketsMiss (idNotFound customerId) /\
   get_response_guidance db customerId issueType =
     Normal (GuidanceMiss (idNotFound customerId)) /\
   forall c, In c (customers db) -> Customer.id c <> customerId) \/
  (exists c r,
     firstWith (hasId customerId) (customers db) c /\
     get_open_tickets db customerId = TicketsHit r /\
     TicketSummary.customerId r = Customer.id c /\
     TicketSummary.company r = Customer.company c /\
     TicketSummary.tier r = Customer.tier c /\
     TicketSummary.escalationRule r =
       getProperty (escalationRules db) (Customer.tier c) /\
     match get_response_guidance db customerId issueType with
     | Normal (GuidanceHit g) =>
         GuidanceCustomer.company (ResponseGuidance.customer g) = TicketSummary.company r /\
         GuidanceCustomer.tier (ResponseGuidance.customer g) = TicketSummary.tier r /\
         ResponseGuidance.escalationPath g = TicketSummary.escalationRule r /\
         ResponseGuidance.issueType g = issueType
     | Normal (GuidanceMiss _) => False
     | Throw _ => issueType = "escalation" /\ TicketSummary.escalationRule r = Undefined
     end).
Proof.
  unfold get_open_tickets, get_response_guidance.
  destruct (find _ (customers db)) as [c|] eqn:Hfind.
  - right. pose proof Hfind as Hfirst. apply find_hasId_first in Hfirst.
    eexists c, _. split; [exact Hfirst|]. split; [reflexivity|].
    cbn [TicketSummary.customerId TicketSummary.company TicketSummary.tier
         TicketSummary.escalationRule].
    destruct Hfirst as (pre & post & _ & Hid & _).
    split; [now symmetry|]. do 3 (split; [reflexivity|]).
    destruct (generateResponseGuidance db c issueType) as [g|e] eqn:Hg.
    + revert Hg. unfold generateResponseGuidance.
      repeat match goal with
             | |- context [if ?b then _ else _] => destruct b
             | |- context [match ?o with Own _ => _ | Inherited _ => _ | Undefined => _ end] =>
                 destruct o
             end; intros [= <-]; repeat split.
    + apply (generateResponseGuidance_throws db c issueType). eauto.
  - left. split; [reflexivity|]. split; [reflexivity|].
    intros c Hin Hid.
    apply (find_nothing _ _ (id_eqb_spec customerId) _ Hfind c Hin Hid).
Qed.

(** ** Known issues in the guidance *)

Lemma append_assoc (a b c : string) : (a +:+ b) +:+ c = a +:+ b +:+ c.
Proof.
  induction a as [|x a IH]; [reflexivity|].
  change (String x ((a +:+ b) +:+ c) = String x (a +:+ b +:+ c)). now rewrite IH.
Qed.

Lemma append_empty_r (a : string) : a +:+ "" = a.
Proof.
  induction a as [|x a IH]; [reflexivity|].
  change (String x (a +:+ "") = String x a). now rewrite IH.
Qed.

Lemma contains_append_l (pre s sub : string) :
  contains s sub -> contains (pre +:+ s) sub.
Proof.
  intros (p & q & ->). exists (pre +:+ p), q. now rewrite append_assoc.
Qed.

Lemma join_contains (sep : string) (l : list string) (x : string) :
  In x l -> contains (join sep l) x.
Proof.
  induction l as [|y l IH]; [intros []|].
  intros [<- | Hin].
  - destruct l as [|z l]; simpl.
    + exists "", "". now rewrite append_empty_r.
    + exists "", (sep +:+ join sep (z :: l)). reflexivity.
  - destruct l as [|z l]; [destruct Hin|].
    change (join sep (y :: z :: l)) with (y +:+ sep +:+ join sep (z :: l)).
    apply contains_append_l, contains_append_l, IH, Hin.
Qed.

(** X8: when a customer has known issues, the last line of the key guidance
    is the known-issues directive, and it spells out every known issue of
    the customer. *)
Theorem known_issues_directive_lists_every_issue (db : Database) (c : Customer.t) :
  Customer.knownIssues c <> [] ->
  exists line,
    last (SupportGuidance.keyGuidance (generateSupportGuidance db c)) = Some line /\
    startsWith line knownIssuesHead = true /\
    forall issue, In issue (Customer.knownIssues c) -> contains line issue.
Proof.
  intros Hne. cbn [generateSupportGuidance SupportGuidance.keyGuidance].
  unfold knownIssuesGuidance.
  apply knownIssues_nonempty in Hne. rewrite Hne.
  eexists. split; [|split].
  - rewrite !app_assoc. apply last_snoc.
  - apply startsWith_spec. eexists. reflexivity.
  - intros issue Hin. apply contains_append_l, join_contains, Hin.
Qed.

Lemma known_issues_directive_lists_every_issue_witness :
  exists line,
    last (SupportGuidance.keyGuidance (generateSupportGuidance Sample.db Sample.acme)) =
      Some line /\
    startsWith line knownIssuesHead = true /\
    forall issue, In issue (Customer.knownIssues Sample.acme) -> contains line issue.
Proof.
  apply (known_issues_directive_lists_every_issue Sample.db Sample.acme).
  discriminate.
Defined.

(** ** Response guidance by issue type *)

Lemma primaryOf_none (c : Customer.t) :
  (forall p, In p (Customer.contacts c) -> Contact.primary p = false) ->
  primaryOf c = None.
Proof.
  intros Hnone. unfold primaryOf.
  destruct (find Contact.primary (Customer.contacts c)) as [p|] eqn:Hfind; [|reflexivity].
  apply find_some in Hfind as [Hin Hp]. rewrite (Hnone p Hin) in Hp. discriminate.
Qed.

Lemma primaryOf_first (c : Customer.t) (p : Contact.t) :
  firstWith (fun p => Contact.primary p = true) (Customer.contacts c) p ->
  primaryOf c = Some p.
Proof. apply (first_found Contact.primary _ (fun p => iff_refl _)). Qed.

(** X9: whenever response guidance is produced, its template opens with the
    greeting "Hi <name>," and a blank line, where the name is that of the
    first contact flagged primary; it is "there" when no contact is flagged
    primary and when that contact's name is empty. *)
Theorem template_greets_primary_contact `{Host} (db : Database) (c : Customer.t)
    (issueType : string) (g : ResponseGuidance.t) :
  generateResponseGuidance db c issueType = Normal g ->
  exists name body,
    ResponseGuidance.responseTemplate g = "Hi " +:+ name +:+ "," +:+ nl +:+ nl +:+ body /\
    ((forall p, In p (Customer.contacts c) -> Contact.primary p = false) ->
     name = "there" /\
     GuidanceCustomer.primaryContact (ResponseGuidance.customer g) = None) /\
    (forall p,
       firstWith (fun p => Contact.primary p = true) (Customer.contacts c) p ->
       GuidanceCustomer.primaryContact (ResponseGuidance.customer g) = Some (Contact.name p) /\
       (Contact.name p <> "" -> name = Contact.name p) /\
       (Contact.name p = "" -> name = "there")).
Proof.
  intros Hg.
  assert (Hname :
    ((forall p, In p (Customer.contacts c) -> Contact.primary p = false) ->
     greetingName c = "there" /\ Contact.name <$> primaryOf c = None) /\
    (forall p,
       firstWith (fun p => Contact.primary p = true) (Customer.contacts c) p ->
       Contact.name <$> primaryOf c = Some (Contact.name p) /\
       (Contact.name p <> "" -> greetingName c = Contact.name p) /\
       (Contact.name p = "" -> greetingName c = "there"))).
  { unfold greetingName. split.
    - intros Hnone. now rewrite (primaryOf_none c Hnone).
    - intros p Hp. rewrite (primaryOf_first c p Hp). cbn.
      destruct (String.eqb (Contact.name p) "") eqn:E.
      + apply String.eqb_eq in E. repeat split; congruence.
      + apply String.eqb_neq in E. repeat split; congruence. }
  revert Hg. unfold generateResponseGuidance.
  repeat match goal with
         | |- context [if ?b then _ else _] => destruct b
         | |- context [match ?o with Own _ => _ | Inherited _ => _ | Undefined => _ end] =>
             destruct o
         end; intros [= <-]; exists (greetingName c); eexists; (split; [reflexivity | exact Hname]).
Qed.

Lemma template_greets_primary_contact_witness :
  exists name body,
    ResponseGuidance.responseTemplate
      {| ResponseGuidance.customer :=
           {| GuidanceCustomer.company := "Acme Corporation";
              GuidanceCustomer.tier := "Enterprise";
              GuidanceCustomer.primaryContact := Some "John Smith" |};
         ResponseGuidance.issueType := "account";
         ResponseGuidance.responseTemplate := @defaultTemplate Sample.acme;
         ResponseGuidance.toneGuidance := tierTone Sample.acme;
         ResponseGuidance.escalationPath :=
           getProperty (escalationRules Sample.db) "Enterprise";
         ResponseGuidance.additionalContext := [] |} =
      "Hi " +:+ name +:+ "," +:+ nl +:+ nl +:+ body /\
    ((forall p, In p (Customer.contacts Sample.acme) -> Contact.primary p = false) ->
     name = "there" /\ Some "John Smith" = None) /\
    (forall p,
       firstWith (fun p => Contact.primary p = true) (Customer.contacts Sample.acme) p ->
       Some "John Smith" = Some (Contact.name p) /\
       (Contact.name p <> "" -> name = Contact.name p) /\
       (Contact.name p = "" -> name = "there")).
Proof.
  apply (@template_greets_primary_contact Sample.host Sample.db Sample.acme "account").
  reflexivity.
Defined.

(** X10: the issue types "api" and "technical" are handled alike: both
    produce guidance, with the same template, tone, escalation path and
    additional context. The context has two entries for a customer without
    known issues and a third one, spelling out every known issue, for a
    customer with some. *)
Theorem api_and_technical_share_guidance `{Host} (db : Database) (c : Customer.t) :
  exists ga gt,
    generateResponseGuidance db c "api" = Normal ga /\
    generateResponseGuidance db c "technical" = Normal gt /\
    ResponseGuidance.issueType ga = "api" /\
    ResponseGuidance.issueType gt = "technical" /\
    ResponseGuidance.customer ga = ResponseGuidance.customer gt /\
    ResponseGuidance.responseTemplate ga = ResponseGuidance.responseTemplate gt /\
    ResponseGuidance.toneGuidance ga = ResponseGuidance.toneGuidance gt /\
    ResponseGuidance.escalationPath ga = ResponseGuidance.escalationPath gt /\
    ResponseGuidance.additionalContext ga = ResponseGuidance.additionalContext gt /\
    (Customer.knownIssues c = [] ->
     length (ResponseGuidance.additionalContext ga) = 2%nat) /\
    (Customer.knownIssues c <> [] ->
     length (ResponseGuidance.additionalContext ga) = 3%nat /\
     exists line,
       ResponseGuidance.additionalContext ga !! 2%nat = Some line /\
       forall issue, In issue (Customer.knownIssues c) -> contains line issue).
Proof.
  eexists _, _. split; [reflexivity|]. split; [reflexivity|].
  cbn [ResponseGuidance.issueType ResponseGuidance.customer
       ResponseGuidance.responseTemplate ResponseGuidance.toneGuidance
       ResponseGuidance.escalationPath ResponseGuidance.additionalContext].
  do 7 (split; [reflexivity|]). split.
  - intros ->. reflexivity.
  - intros Hne. apply knownIssues_nonempty in Hne as Hlen. rewrite Hlen.
    split; [reflexivity|]. eexists. split; [reflexivity|].
    intros issue Hin. apply contains_append_l, join_contains, Hin.
Qed.

(** X12: the priority level of the support guidance and the tone of the
    response guidance never disagree: whenever response guidance is
    produced, the priority level is "HIGH" exactly when the tone guidance
    opens with the consultative line, and "STANDARD" exactly when it opens
    with the friendly one. *)
Theorem priority_agrees_with_tone `{Host} (db : Database) (c : Customer.t)
    (issueType : string) (g : ResponseGuidance.t) :
  generateResponseGuidance db c issueType = Normal g ->
  let level := SupportGuidance.priorityLevel (generateSupportGuidance db c) in
  (level = "HIGH" <->
   head (ResponseGuidance.toneGuidance g) = Some "Use professional, consultative tone") /\
  (level = "STANDARD" <->
   head (ResponseGuidance.toneGuidance g) = Some "Friendly and helpful tone").
Proof.
  intros Hg.
  assert (Htone : exists extra, ResponseGuidance.toneGuidance g = tierTone c ++ extra).
  { revert Hg. unfold generateResponseGuidance.
    repeat match goal with
           | |- context [if ?b then _ else _] => destruct b
           | |- context [match ?o with Own _ => _ | Inherited _ => _ | Undefined => _ end] =>
             destruct o
           end; intros [= <-]; cbn [ResponseGuidance.toneGuidance];
      solve [ exists []; now rewrite app_nil_r | now exists escalationTone ]. }
  destruct Htone as [extra ->].
  cbn [generateSupportGuidance SupportGuidance.priorityLevel]. unfold tierTone.
  destruct (includes (Customer.tier c) "Enterprise"); cbn;
    split; split; intros Heq; reflexivity || discriminate.
Qed.

Lemma priority_agrees_with_tone_witness :
  let level :=
    SupportGuidance.priorityLevel (generateSupportGuidance Sample.db Sample.initech) in
  (level = "HIGH" <->
   head (tierTone Sample.initech) = Some "Use professional, consultative tone") /\
  (level = "STANDARD" <->
   head (tierTone Sample.initech) = Some "Friendly and helpful tone").
Proof.
  apply (@priority_agrees_with_tone Sample.host Sample.db Sample.initech "account"
           {| ResponseGuidance.customer :=
                {| GuidanceCustomer.company := "Initech Labs";
                   GuidanceCustomer.tier := "Startup";
                   GuidanceCustomer.primaryContact := Some "John Smith" |};
              ResponseGuidance.issueType := "account";
              ResponseGuidance.responseTemplate := defaultTemplate Sample.initech;
              ResponseGuidance.toneGuidance := tierTone Sample.initech;
              ResponseGuidance.escalationPath := Undefined;
              ResponseGuidance.additionalContext := [] |}).
  reflexivity.
Defined.

(** ** Shape of the key guidance *)

Lemma app_empty_iff {A : Type} (l1 l2 : list A) : l1 ++ l2 = [] <-> l1 = [] /\ l2 = [].
Proof.
  split; [apply app_eq_nil | intros [-> ->]; reflexivity].
Qed.

Lemma optional_block_empty (b : bool) (msg : string) :
  (if b then [msg] else []) = [] <-> b = false.
Proof. destruct b; split; intros Hb; reflexivity || discriminate. Qed.

Lemma Array_includes_false (l : list string) (x : string) :
  Array_includes l x = false <-> ~ In x l.
Proof.
  rewrite <- Array_includes_spec. destruct (Array_includes l x); split; congruence.
Qed.

Lemma tierGuidance_empty (c : Customer.t) :
  tierGuidance c = [] <->
  Customer.tier c <> "Enterprise Plus" /\ Customer.tier c <> "Enterprise".
Proof.
  unfold tierGuidance.
  destruct (String.eqb (Customer.tier c) "Enterprise Plus") eqn:EP.
  { apply String.eqb_eq in EP. split; [discriminate | intros [Hne _]; contradiction]. }
  destruct (String.eqb (Customer.tier c) "Enterprise") eqn:E.
  { apply String.eqb_eq in E. split; [discriminate | intros [_ Hne]; contradiction]. }
  apply String.eqb_neq in EP, E. split; [now split | reflexivity].
Qed.

Lemma flagGuidance_empty (c : Customer.t) :
  flagGuidance c = [] <-> forall f, In f knownFlags -> ~ In f (Customer.flags c).
Proof.
  unfold flagGuidance.
  rewrite !app_empty_iff, !optional_block_empty, !Array_includes_false.
  unfold knownFlags. split.
  - intros (H1 & H2 & H3 & H4) f [<- | [<- | [<- | [<- | []]]]]; assumption.
  - intros Hall. repeat split; apply Hall; simpl; tauto.
Qed.

(** X13: the key guidance is empty exactly for a customer whose tier is
    neither "Enterprise Plus" nor "Enterprise", that carries none of the four
    flags the guidance looks for, whose utilization is below 90 and that has
    no known issue; it never has more than nine lines. *)
Theorem keyGuidance_empty_iff (db : Database) (c : Customer.t) :
  let guidance := SupportGuidance.keyGuidance (generateSupportGuidance db c) in
  (guidance = [] <->
   Customer.tier c <> "Enterprise Plus" /\ Customer.tier c <> "Enterprise" /\
   (forall f, In f knownFlags -> ~ In f (Customer.flags c)) /\
   (ApiUsage.utilizationPercent (Customer.apiUsage c) < 90)%Q /\
   Customer.knownIssues c = []) /\
  (length guidance <= 9)%nat.
Proof.
  cbn [generateSupportGuidance SupportGuidance.keyGuidance]. split.
  - rewrite !app_empty_iff, tierGuidance_empty, flagGuidance_empty.
    unfold usageGuidance, knownIssuesGuidance.
    rewrite !optional_block_empty, Qle_bool_false.
    assert ((0 <? length (Customer.knownIssues c))%nat = false <->
            Customer.knownIssues c = []) as ->.
    { destruct (Customer.knownIssues c); simpl; split; intros Hk;
        reflexivity || discriminate. }
    tauto.
  - rewrite !length_app.
    assert (length (tierGuidance c) <= 3)%nat.
    { unfold tierGuidance. repeat destruct (String.eqb _ _); simpl; lia. }
    assert (length (flagGuidance c) <= 4)%nat.
    { unfold flagGuidance. rewrite !length_app.
      repeat match goal with
             | |- context [if ?b then _ else _] => destruct b
             end; simpl; lia. }
    assert (length (usageGuidance c) <= 1)%nat.
    { unfold usageGuidance. destruct (Qle_bool _ _); simpl; lia. }
    assert (length (knownIssuesGuidance c) <= 1)%nat.
    { unfold knownIssuesGuidance. destruct (0 <? _)%nat; simpl; lia. }
    lia.
Qed.

(** X14: the support guidance reads the flags of a customer only through
    the presence of the four flags it looks for: reordering the flags,
    repeating them, or adding other flags changes nothing. *)
Theorem guidance_reads_known_flags_only (db : Database) (c : Customer.t)
    (flags' : list string) :
  (forall f, In f knownFlags -> (In f (Customer.flags c) <-> In f flags')) ->
  generateSupportGuidance db (withFlags c flags') = generateSupportGuidance db c.
Proof.
  intros Hsame.
  assert (Hinc : forall f, In f knownFlags ->
            Array_includes flags' f = Array_includes (Customer.flags c) f).
  { intros f Hf. specialize (Hsame f Hf).
    rewrite <- !Array_includes_spec in Hsame.
    destruct (Array_includes flags' f), (Array_includes (Customer.flags c) f);
      intuition congruence. }
  unfold generateSupportGuidance. f_equal.
  unfold tierGuidance, flagGuidance, usageGuidance, knownIssuesGuidance.
  cbn [withFlags Customer.tier Customer.flags Customer.apiUsage Customer.knownIssues].
  rewrite !Hinc by (unfold knownFlags; simpl; tauto). reflexivity.
Qed.

Lemma guidance_reads_known_flags_only_witness :
  generateSupportGuidance Sample.db
    (withFlags Sample.acme
       ["BETA_TESTER"; "EXPANSION_OPPORTUNITY"; "HIGH_VALUE"; "EXPANSION_OPPORTUNITY"]) =
  generateSupportGuidance Sample.db Sample.acme.
Proof.
  apply (guidance_reads_known_flags_only Sample.db Sample.acme).
  intros f [<- | [<- | [<- | [<- | []]]]]; simpl; split; intros Hin;
    repeat (destruct Hin as [Hin | Hin]; [discriminate Hin || (clear Hin; tauto) |]);
    try destruct Hin; tauto.
Defined.

(** ** Escalation rules by tier *)

Lemma enum_tier_not_inherited (tier : Tier) :
  ~ In (tierName tier) Object_prototype_members.
Proof.
  destruct tier; cbn; intros Hin;
    repeat (destruct Hin as [Hin | Hin]; [discriminate Hin|]); exact Hin.
Qed.

(** X16: the four handlers read the rule of a tier from the same table. For
    a customer whose tier is one [check_escalation_rules] accepts: when the
    table has a rule for the tier, [check_escalation_rules] returns that
    rule, its guidance is the high-touch one exactly when the support
    guidance has priority "HIGH", a non-empty maximum response time of the
    rule is the response time target, and escalation guidance is produced
    with that rule as its path and the rule's target in its template; when
    the table has none, [check_escalation_rules] reports the tier unknown,
    the target is "24 hours" and escalation guidance throws. *)
Theorem tier_rules_agree_across_handlers `{Host} (db : Database) (c : Customer.t)
    (tier : Tier) :
  tierName tier = Customer.tier c ->
  match escalationRules db !! Customer.tier c with
  | Some rule =>
      check_escalation_rules db tier =
        RulesHit
          {| TierRules.tier := Customer.tier c;
             TierRules.escalationRules := Own rule;
             TierRules.guidance :=
               match tier with
               | Enterprise | EnterprisePlus =>
                   "High-touch support required. Always personalize responses and proactively communicate."
               | Standard | Growth => "Standard support flow. Escalate if SLA at risk."
               end |} /\
      (SupportGuidance.priorityLevel (generateSupportGuidance db c) = "HIGH" <->
       tier = Enterprise \/ tier = EnterprisePlus) /\
      (EscalationRule.maxResponseTime rule <> "" ->
       SupportGuidance.responseTimeTarget (generateSupportGuidance db c) =
         EscalationRule.maxResponseTime rule) /\
      exists g,
        generateResponseGuidance db c "escalation" = Normal g /\
        ResponseGuidance.escalationPath g = Own rule /\
        contains (ResponseGuidance.responseTemplate g) (EscalationRule.escalateTo rule)
  | None =>
      (exists m,
         check_escalation_rules db tier = RulesMiss m /\
         UnknownTier.error m = "Unknown tier: " +:+ Customer.tier c /\
         (Customer.tier c ∉ UnknownTier.validTiers m)) /\
      SupportGuidance.responseTimeTarget (generateSupportGuidance db c) = "24 hours" /\
      exists e, generateResponseGuidance db c "escalation" = Throw e
  end.
Proof.
  intros Htier. unfold check_escalation_rules.
  cbn [generateSupportGuidance SupportGuidance.priorityLevel
       SupportGuidance.responseTimeTarget].
  rewrite <- Htier.
  destruct (escalationRules db !! tierName tier) as [rule|] eqn:Hrule.
  - pose proof Hrule as Hown. apply getProperty_Own in Hown. rewrite Hown.
    split; [destruct tier; reflexivity|]. split; [|split].
    + destruct tier; cbn; split; intros Hl; try discriminate; try reflexivity;
        try (destruct Hl; discriminate); auto.
    + intros Hne. cbn [optionalField or_default].
      apply String.eqb_neq in Hne. now rewrite Hne.
    + unfold generateResponseGuidance.
      cbn [String.eqb Ascii.eqb Bool.eqb orb]. rewrite <- Htier, Hown.
      eexists. split; [reflexivity|]. split; [reflexivity|].
      cbn [ResponseGuidance.responseTemplate]. unfold escalationTemplate.
      do 6 apply contains_append_l. eexists "", _. reflexivity.
  - assert (Hund : getProperty (escalationRules db) (tierName tier) = Undefined).
    { apply getProperty_Undefined. split; [exact Hrule | apply enum_tier_not_inherited]. }
    rewrite Hund. split; [|split].
    + eexists. split; [reflexivity|]. split; [reflexivity|].
      cbn [UnknownTier.validTiers]. rewrite elem_of_dom, Hrule. intros [x Hx]. discriminate.
    + reflexivity.
    + apply generateResponseGuidance_throws. rewrite <- Htier. now split.
Qed.

Lemma tier_rules_agree_across_handlers_witness :
  check_escalation_rules Sample.db Enterprise =
    RulesHit
      {| TierRules.tier := "Enterprise";
         TierRules.escalationRules :=
           Own {| EscalationRule.maxResponseTime := "4 hours";
                  EscalationRule.escalateTo := "Senior Support Engineer";
                  EscalationRule.autoEscalateAfter := "8 hours" |};
         TierRules.guidance :=
           "High-touch support required. Always personalize responses and proactively communicate." |} /\
  (SupportGuidance.priorityLevel (generateSupportGuidance Sample.db Sample.acme) = "HIGH" <->
   Enterprise = Enterprise \/ Enterprise = EnterprisePlus) /\
  ("4 hours" <> "" ->
   SupportGuidance.responseTimeTarget (generateSupportGuidance Sample.db Sample.acme) =
     "4 hours") /\
  exists g,
    @generateResponseGuidance Sample.host Sample.db Sample.acme "escalation" = Normal g /\
    ResponseGuidance.escalationPath g =
      Own {| EscalationRule.maxResponseTime := "4 hours";
             EscalationRule.escalateTo := "Senior Support Engineer";
             EscalationRule.autoEscalateAfter := "8 hours" |} /\
    contains (ResponseGuidance.responseTemplate g) "Senior Support Engineer".
Proof.
  exact (@tier_rules_agree_across_handlers Sample.host Sample.db Sample.acme Enterprise
           eq_refl).
Defined.

Example inherited_member_does_not_throw :
  let c := Sample.customer "OBJ-001" "Object Works" "constructor" in
  escalationRules Sample.db !! Customer.tier c = None /\
  SupportGuidance.responseTimeTarget (generateSupportGuidance Sample.db c) = "24 hours" /\
  exists g,
    @generateResponseGuidance Sample.host Sample.db c "escalation" = Normal g /\
    ResponseGuidance.escalationPath g = Inherited "constructor" /\
    contains (ResponseGuidance.responseTemplate g) "escalating this to undefined immediately".
Proof.
  cbv zeta. split; [reflexivity|]. split; [reflexivity|].
  eexists. split; [reflexivity|]. split; [reflexivity|].
  cbn [ResponseGuidance.responseTemplate]. unfold escalationTemplate.
  do 5 apply contains_append_l.
  exists "I understand the urgency of this issue and I'm ",
         ("." +:+ nl +:+ nl +:+ "[Summary of issue and actions taken]" +:+
          nl +:+ nl +:+ "You can expect an update within [timeframe based on SLA].").
  reflexivity.
Qed.

(** ** Ticket summaries *)

(** X17: the day count of a ticket is positive exactly when the ticket was
    created strictly before the clock reading taken for it, so a ticket one
    millisecond old already counts one day; it is 0 when the creation time is
    the reading or less than a day after it, and negative beyond; a creation
    time that does not parse gives no count. *)
Theorem ageInDays_sign `{Host} (k : nat) (t : Ticket.t) :
  match getTime (Ticket.createdAt t) with
  | Some created =>
      exists d,
        TicketView.ageInDays (ticketView k t) = Some d /\
        (1 <= d <-> created < Date_now k) /\
        (d = 0 <-> Date_now k <= created < Date_now k + msPerDay) /\
        (d < 0 <-> Date_now k + msPerDay <= created)
  | None => TicketView.ageInDays (ticketView k t) = None
  end.
Proof.
  cbn [ticketView TicketView.ageInDays].
  destruct (getTime (Ticket.createdAt t)) as [created|]; [|reflexivity].
  eexists. split; [reflexivity|].
  pose proof (ceilDays_spec (Date_now k - created)) as Hceil.
  change msPerDay with 86400000 in *. lia.
Qed.

(** X18: in a ticket summary the count is the length of the ticket list, the
    list is no longer than the stored ticket collection, and every listed
    ticket is a stored ticket of the requested id, shown with its own id,
    subject, status, priority, assignee and tags. *)
Theorem ticket_summary_is_consistent `{Host} (db : Database) (customerId : string)
    (r : TicketSummary.t) :
  get_open_tickets db customerId = TicketsHit r ->
  TicketSummary.customerId r = customerId /\
  TicketSummary.openTicketCount r = length (TicketSummary.tickets r) /\
  (length (TicketSummary.tickets r) <= length (tickets db))%nat /\
  forall v, In v (TicketSummary.tickets r) ->
    exists t,
      In t (tickets db) /\ Ticket.customerId t = customerId /\
      TicketView.id v = Ticket.id t /\ TicketView.subject v = Ticket.subject t /\
      TicketView.status v = Ticket.status t /\ TicketView.priority v = Ticket.priority t /\
      TicketView.lastUpdated v = Ticket.lastUpdated t /\
      TicketView.assignee v = Ticket.assignee t /\ TicketView.tags v = Ticket.tags t.
Proof.
  unfold get_open_tickets.
  destruct (find _ (customers db)) as [c|]; [|discriminate].
  intros [= <-].
  cbn [TicketSummary.customerId TicketSummary.openTicketCount TicketSummary.tickets].
  split; [reflexivity|]. split; [now rewrite length_imap|]. split.
  - rewrite length_imap. apply filter_length_le.
  - intros v Hv.
    apply list_elem_of_In, elem_of_lookup_imap_1 in Hv as (i & t & -> & Ht).
    apply list_elem_of_lookup_2, list_elem_of_In in Ht.
    apply filter_In in Ht as [Hin Hopen].
    apply isOpenTicketOf_spec in Hopen as [Hid _].
    exists t. repeat split; assumption.
Qed.

Lemma ticket_summary_is_consistent_witness :
  let listed :=
    imap (@ticketView Sample.host)
      (List.filter (isOpenTicketOf "ENT-001") (tickets Sample.db)) in
  "ENT-001" = "ENT-001" /\
  3%nat = length listed /\
  (length listed <= length (tickets Sample.db))%nat /\
  forall v, In v listed ->
    exists t,
      In t (tickets Sample.db) /\ Ticket.customerId t = "ENT-001" /\
      TicketView.id v = Ticket.id t /\ TicketView.subject v = Ticket.subject t /\
      TicketView.status v = Ticket.status t /\ TicketView.priority v = Ticket.priority t /\
      TicketView.lastUpdated v = Ticket.lastUpdated t /\
      TicketView.assignee v = Ticket.assignee t /\ TicketView.tags v = Ticket.tags t.
Proof.
  exact (@ticket_summary_is_consistent Sample.host Sample.db "ENT-001"
           {| TicketSummary.customerId := "ENT-001";
              TicketSummary.company := "Acme Corporation";
              TicketSummary.tier := "Enterprise";
              TicketSummary.openTicketCount := 3;
              TicketSummary.tickets :=
                imap (@ticketView Sample.host)
                  (List.filter (isOpenTicketOf "ENT-001") (tickets Sample.db));
              TicketSummary.escalationRule :=
                getProperty (escalationRules Sample.db) "Enterprise" |}
           eq_refl).
Defined.

(** ** Billing guidance against the looked-up customer *)

(** X19: billing guidance is always produced and shows the data
    [lookup_customer] shows for the same customer: its additional context is
    the contract value, formatted as in the looked-up view, then the renewal
    date; its template quotes that contract value and every product; and it
    names the same primary contact. *)
Theorem billing_guidance_matches_lookup `{Host} (db : Database) (c : Customer.t) :
  let view := CustomerContext.customer (customerContext db c) in
  exists g,
    generateResponseGuidance db c "billing" = Normal g /\
    ResponseGuidance.additionalContext g =
      [ "Contract value: " +:+ CustomerView.contractValue view;
        "Renewal date: " +:+ RenewalStatus.date (CustomerView.renewalStatus view) ] /\
    contains (ResponseGuidance.responseTemplate g) (CustomerView.contractValue view) /\
    (forall product, In product (CustomerView.products view) ->
       contains (ResponseGuidance.responseTemplate g) product) /\
    GuidanceCustomer.primaryContact (ResponseGuidance.customer g) =
      PrimaryContact.name <$> CustomerView.primaryContact view.
Proof.
  cbn zeta. eexists. split; [reflexivity|].
  cbn [ResponseGuidance.additionalContext ResponseGuidance.responseTemplate
       ResponseGuidance.customer GuidanceCustomer.primaryContact
       customerContext CustomerContext.customer CustomerView.contractValue
       CustomerView.renewalStatus RenewalStatus.date CustomerView.products
       CustomerView.primaryContact].
  split; [reflexivity|]. unfold billingTemplate. split; [|split].
  - do 10 apply contains_append_l.
    exists " at ", ("/year." +:+ nl +:+ nl +:+ "[Resolution or next steps]").
    reflexivity.
  - intros product Hin. do 9 apply contains_append_l.
    destruct (join_contains ", " _ _ Hin) as (pre & post & ->).
    exists pre, (post +:+ " at $" +:+ Number_toLocaleString (Customer.contractValue c) +:+
                 "/year." +:+ nl +:+ nl +:+ "[Resolution or next steps]").
    now rewrite !append_assoc.
  - now destruct (primaryOf c).
Qed.
